(** * Client options of kitex: [client/option.go]

  A shallow embedding of the option constructors of [client/option.go]
  ([WithTransportProtocol], [WithSuite], [WithHostPorts], ...) and the
  properties of the composition, validation and trace mechanism they
  implement.

  Go passes the options record and the debug slice by pointer and aborts by
  [panic].  Here an option's function [F] takes the record and the slice and
  returns an [Outcome]: either it returned, with the record and slice as it
  left them, or it panicked, with the panic value and the record and slice
  as they were when the panic was raised (the writes made before a panic
  stay visible to whoever recovers it). *)

From Stdlib Require Import ZArith List Ascii.
From stdpp Require Import base strings gmap pretty.

Local Open Scope Z_scope.
Set Warnings "-register-all".

(** ** Values the options only store or print *)

(** A collaborator passed in by the caller (a resolver, a logger, a codec, a
  load balancer, a tracer, a middleware, a policy record, ...).  The options
  never look inside one: they store it and print it with [fmt]'s [%T] and
  [%+v] verbs, so a handle is an identity together with these two
  renderings. *)
Record Handle : Type := mkHandle {
  handle_id : positive;
  fmt_T : string;      (* fmt.Sprintf("%T", h) *)
  fmt_v : string       (* fmt.Sprintf("%+v", h), also used for %v *)
}.

(** ** package utils *)
Module utils.

(** [type Slice []interface{}]: the elements pushed by this file are
    strings and the anonymous struct [{Suite string; Options utils.Slice}]
    of [WithSuite]. *)
Inductive Elem : Type :=
| Str (s : string)
| Nested (Suite : string) (Options : list Elem).

Definition Slice : Type := list Elem.

(** Modelled from the spec: [Slice.Push] is not in this file; the trace is
    an ordered, append-only sequence, and an applied fragment appends its
    entry to it. *)
Definition Push (s : Slice) (e : Elem) : Slice := s ++ [e].

End utils.

(** ** package transport *)
Module transport.
(** [type Protocol int] *)
Definition Protocol : Type := Z.
End transport.

(** ** package time *)
Module time.
(** [type Duration int64], a count of nanoseconds. *)
Definition Duration : Type := Z.

(** [func (d Duration) Milliseconds() int64 { return int64(d) / 1e6 }];
    Go's integer division truncates toward zero. *)
Definition Milliseconds (d : Duration) : Z := Z.quot d 1000000.
End time.

(** ** package rpcinfo *)
Module rpcinfo.

(** [o.Svr]: the fields of the endpoint info this file writes. *)
Record EndpointBasicInfo : Type := mkEndpointBasicInfo {
  ServiceName : string;
  Tags : gmap string string
}.

(** Modelled from the spec: the RPC config behind [o.Configs] and its
    mutable view ([AsMutableRPCConfig]) are not in this file; the config
    holds the transport protocol, the RPC timeout and the connect timeout,
    and each setter stores its argument in the field it is named after. *)
Record RPCConfig : Type := mkRPCConfig {
  RPCTimeout : time.Duration;
  ConnectTimeout : time.Duration;
  TransportProtocol : transport.Protocol
}.

Definition SetRPCTimeout (c : RPCConfig) (d : time.Duration) : RPCConfig :=
  {| RPCTimeout := d;
     ConnectTimeout := ConnectTimeout c;
     TransportProtocol := TransportProtocol c |}.

Definition SetConnectTimeout (c : RPCConfig) (d : time.Duration) : RPCConfig :=
  {| RPCTimeout := RPCTimeout c;
     ConnectTimeout := d;
     TransportProtocol := TransportProtocol c |}.

Definition SetTransportProtocol (c : RPCConfig) (tp : transport.Protocol) : RPCConfig :=
  {| RPCTimeout := RPCTimeout c;
     ConnectTimeout := ConnectTimeout c;
     TransportProtocol := tp |}.

End rpcinfo.

(** ** package discovery *)
Module discovery.

(** What [NewInstance(network, address, weight, tags)] is built from. *)
Record Instance : Type := NewInstance {
  Network : string;
  Address : string;
  Weight : Z;
  InstanceTags : option (gmap string string)
}.

Record Result : Type := mkResult {
  Cacheable : bool;
  CacheKey : string;
  Instances : list Instance
}.

(** [NameFunc] of the resolver built by [WithHostPorts] is the closure
    [func() string { return o.Targets }]: it reads the field through the
    captured pointer when it is called. *)
Inductive NameFunc : Type := ReturnTargets.

(** The value of [o.Resolver]: a resolver of the caller, or the
    [SynthesizedResolver] of [WithHostPorts], whose [ResolveFunc] takes the
    context (not used) and the key and returns a result and a nil error. *)
Inductive Resolver : Type :=
| UserResolver (r : Handle)
| SynthesizedResolver (ResolveFunc : unit -> string -> Result * option string)
                      (Name : NameFunc).

End discovery.

(** ** package retry *)
Module retry.

(** [type Type int] with the constants [FailureType] and [BackupType]. *)
Definition Type_ : Type := Z.

Definition FailurePolicy : Type := Handle.
Definition BackupPolicy : Type := Handle.

Record Policy : Type := mkPolicy {
  Enable : bool;
  Type' : Type_;
  FailurePolicy' : option FailurePolicy;   (* *FailurePolicy, nil = None *)
  BackupPolicy' : option BackupPolicy      (* *BackupPolicy, nil = None *)
}.

(** [retry.Policy{}]: every field at its zero value. *)
Definition zero : Policy :=
  {| Enable := false; Type' := 0; FailurePolicy' := None; BackupPolicy' := None |}.

End retry.

(** ** package endpoint *)
Module endpoint.

(** [type Middleware func(Endpoint) Endpoint]: stored and named, never
    called here. *)
Definition Middleware : Type := Handle.

(** [type MiddlewareBuilder func(ctx context.Context) Middleware]: a builder
    of the caller, or the closure [func(ctx) Middleware { return mw }] that
    [WithMiddleware] and [WithInstanceMW] wrap around a middleware. *)
Inductive MiddlewareBuilder : Type :=
| UserBuilder (mwb : Handle)
| ConstBuilder (mw : Middleware).

End endpoint.

(** ** package remote *)
Module remote.

(** [o.RemoteOpt]: the fields of [remote.ClientOption] this file writes;
    an interface value or pointer is [None] when nil. *)
Record ClientOption : Type := mkClientOption {
  ConnPool : option Handle;
  CliHandlerFactory : option Handle;
  Codec : option Handle;
  PayloadCodec : option Handle;
  EnableConnPoolReporter : bool
}.

Definition set_ConnPool v (r : ClientOption) : ClientOption :=
  mkClientOption v (CliHandlerFactory r) (Codec r) (PayloadCodec r)
    (EnableConnPoolReporter r).

Definition set_CliHandlerFactory v (r : ClientOption) : ClientOption :=
  mkClientOption (ConnPool r) v (Codec r) (PayloadCodec r)
    (EnableConnPoolReporter r).

Definition set_Codec v (r : ClientOption) : ClientOption :=
  mkClientOption (ConnPool r) (CliHandlerFactory r) v (PayloadCodec r)
    (EnableConnPoolReporter r).

Definition set_PayloadCodec v (r : ClientOption) : ClientOption :=
  mkClientOption (ConnPool r) (CliHandlerFactory r) (Codec r) v
    (EnableConnPoolReporter r).

Definition set_EnableConnPoolReporter v (r : ClientOption) : ClientOption :=
  mkClientOption (ConnPool r) (CliHandlerFactory r) (Codec r) (PayloadCodec r) v.

End remote.

(** ** package internal/stats *)
Module internal_stats.

(** [Controller]: the tracers of the client, in the order they were added. *)
Record Controller : Type := mkController { tracers : list Handle }.

(** [&internal_stats.Controller{}] *)
Definition zero : Controller := {| tracers := [] |}.

(** Modelled from the spec: [Controller.Append] is not in this file; it
    appends the tracer to the controller's ordered list. *)
Definition Append (ctl : Controller) (c : Handle) : Controller :=
  {| tracers := tracers ctl ++ [c] |}.

End internal_stats.

(** ** package internal/client *)
Module internal_client.

(** [o.Locks]: a bit per protected field of the RPC config and the set of
    tag keys set by an option ([map[string]struct{}]). *)
Record ConfigLocks : Type := mkConfigLocks {
  Bits : Z;
  Tags : gset string
}.

(** Modelled from the spec: [o.Once] and its method [OnceOrPanic] are not in
    this file; a field guarded by it can be set at most once and a second
    attempt is a fatal error.  [WithDestService] is the only caller here, so
    the guard is the flag of that one option. *)
Record OptionOnce : Type := mkOptionOnce { used : bool }.

(** [client.Options]: the fields this file reads or writes.  [Svr], [Locks],
    [Once] and [RemoteOpt] are pointers and [Svr.Tags], [Locks.Tags] maps
    that the constructor of [Options] allocates; they are taken as allocated. *)
Record Options : Type := mkOptions {
  Svr : rpcinfo.EndpointBasicInfo;
  Configs : rpcinfo.RPCConfig;
  Locks : ConfigLocks;
  Once : OptionOnce;
  MWBs : list endpoint.MiddlewareBuilder;
  IMWBs : list endpoint.MiddlewareBuilder;
  Targets : string;
  Resolver : option discovery.Resolver;
  HTTPResolver : option Handle;
  PoolCfg : option Handle;
  Logger : option Handle;
  Balancer : option Handle;
  BalancerCacheOpt : option Handle;
  TracerCtl : option internal_stats.Controller;
  StatsLevel : Handle;
  RemoteOpt : remote.ClientOption;
  RetryPolicy : option retry.Policy
}.

(** A value given to [panic]: an [error] built by [fmt.Errorf], or a string. *)
Inductive PanicValue : Type :=
| PanicError (msg : string)
| PanicString (msg : string).

(** What a call [op.F(o, di)] leaves behind. *)
Inductive Outcome : Type :=
| Returns (o : Options) (di : utils.Slice)
| Panics (v : PanicValue) (o : Options) (di : utils.Slice).

(** [type Option struct { F func(o *Options, di *utils.Slice) }] *)
Record Option : Type := mkOption { F : Options -> utils.Slice -> Outcome }.

(** *** Field updates

    [o.X = v] leaves every other field as it is. *)
Definition set_Svr v (o : Options) : Options :=
  mkOptions v (Configs o) (Locks o) (Once o) (MWBs o) (IMWBs o) (Targets o)
    (Resolver o) (HTTPResolver o) (PoolCfg o) (Logger o) (Balancer o)
    (BalancerCacheOpt o) (TracerCtl o) (StatsLevel o) (RemoteOpt o)
    (RetryPolicy o).

Definition set_Configs v (o : Options) : Options :=
  mkOptions (Svr o) v (Locks o) (Once o) (MWBs o) (IMWBs o) (Targets o)
    (Resolver o) (HTTPResolver o) (PoolCfg o) (Logger o) (Balancer o)
    (BalancerCacheOpt o) (TracerCtl o) (StatsLevel o) (RemoteOpt o)
    (RetryPolicy o).

Definition set_Locks v (o : Options) : Options :=
  mkOptions (Svr o) (Configs o) v (Once o) (MWBs o) (IMWBs o) (Targets o)
    (Resolver o) (HTTPResolver o) (PoolCfg o) (Logger o) (Balancer o)
    (BalancerCacheOpt o) (TracerCtl o) (StatsLevel o) (RemoteOpt o)
    (RetryPolicy o).

Definition set_Once v (o : Options) : Options :=
  mkOptions (Svr o) (Configs o) (Locks o) v (MWBs o) (IMWBs o) (Targets o)
    (Resolver o) (HTTPResolver o) (PoolCfg o) (Logger o) (Balancer o)
    (BalancerCacheOpt o) (TracerCtl o) (StatsLevel o) (RemoteOpt o)
    (RetryPolicy o).

Definition set_MWBs v (o : Options) : Options :=
  mkOptions (Svr o) (Configs o) (Locks o) (Once o) v (IMWBs o) (Targets o)
    (Resolver o) (HTTPResolver o) (PoolCfg o) (Logger o) (Balancer o)
    (BalancerCacheOpt o) (TracerCtl o) (StatsLevel o) (RemoteOpt o)
    (RetryPolicy o).

Definition set_IMWBs v (o : Options) : Options :=
  mkOptions (Svr o) (Configs o) (Locks o) (Once o) (MWBs o) v (Targets o)
    (Resolver o) (HTTPResolver o) (PoolCfg o) (Logger o) (Balancer o)
    (BalancerCacheOpt o) (TracerCtl o) (StatsLevel o) (RemoteOpt o)
    (RetryPolicy o).

Definition set_Targets v (o : Options) : Options :=
  mkOptions (Svr o) (Configs o) (Locks o) (Once o) (MWBs o) (IMWBs o) v
    (Resolver o) (HTTPResolver o) (PoolCfg o) (Logger o) (Balancer o)
    (BalancerCacheOpt o) (TracerCtl o) (StatsLevel o) (RemoteOpt o)
    (RetryPolicy o).

Definition set_Resolver v (o : Options) : Options :=
  mkOptions (Svr o) (Configs o) (Locks o) (Once o) (MWBs o) (IMWBs o)
    (Targets o) v (HTTPResolver o) (PoolCfg o) (Logger o) (Balancer o)
    (BalancerCacheOpt o) (TracerCtl o) (StatsLevel o) (RemoteOpt o)
    (RetryPolicy o).

Definition set_HTTPResolver v (o : Options) : Options :=
  mkOptions (Svr o) (Configs o) (Locks o) (Once o) (MWBs o) (IMWBs o)
    (Targets o) (Resolver o) v (PoolCfg o) (Logger o) (Balancer o)
    (BalancerCacheOpt o) (TracerCtl o) (StatsLevel o) (RemoteOpt o)
    (RetryPolicy o).

Definition set_PoolCfg v (o : Options) : Options :=
  mkOptions (Svr o) (Configs o) (Locks o) (Once o) (MWBs o) (IMWBs o)
    (Targets o) (Resolver o) (HTTPResolver o) v (Logger o) (Balancer o)
    (BalancerCacheOpt o) (TracerCtl o) (StatsLevel o) (RemoteOpt o)
    (RetryPolicy o).

Definition set_Logger v (o : Options) : Options :=
  mkOptions (Svr o) (Configs o) (Locks o) (Once o) (MWBs o) (IMWBs o)
    (Targets o) (Resolver o) (HTTPResolver o) (PoolCfg o) v (Balancer o)
    (BalancerCacheOpt o) (TracerCtl o) (StatsLevel o) (RemoteOpt o)
    (RetryPolicy o).

Definition set_Balancer v (o : Options) : Options :=
  mkOptions (Svr o) (Configs o) (Locks o) (Once o) (MWBs o) (IMWBs o)
    (Targets o) (Resolver o) (HTTPResolver o) (PoolCfg o) (Logger o) v
    (BalancerCacheOpt o) (TracerCtl o) (StatsLevel o) (RemoteOpt o)
    (RetryPolicy o).

Definition set_BalancerCacheOpt v (o : Options) : Options :=
  mkOptions (Svr o) (Configs o) (Locks o) (Once o) (MWBs o) (IMWBs o)
    (Targets o) (Resolver o) (HTTPResolver o) (PoolCfg o) (Logger o)
    (Balancer o) v (TracerCtl o) (StatsLevel o) (RemoteOpt o) (RetryPolicy o).

Definition set_TracerCtl v (o : Options) : Options :=
  mkOptions (Svr o) (Configs o) (Locks o) (Once o) (MWBs o) (IMWBs o)
    (Targets o) (Resolver o) (HTTPResolver o) (PoolCfg o) (Logger o)
    (Balancer o) (BalancerCacheOpt o) v (StatsLevel o) (RemoteOpt o)
    (RetryPolicy o).

Definition set_StatsLevel v (o : Options) : Options :=
  mkOptions (Svr o) (Configs o) (Locks o) (Once o) (MWBs o) (IMWBs o)
    (Targets o) (Resolver o) (HTTPResolver o) (PoolCfg o) (Logger o)
    (Balancer o) (BalancerCacheOpt o) (TracerCtl o) v (RemoteOpt o)
    (RetryPolicy o).

Definition set_RemoteOpt v (o : Options) : Options :=
  mkOptions (Svr o) (Configs o) (Locks o) (Once o) (MWBs o) (IMWBs o)
    (Targets o) (Resolver o) (HTTPResolver o) (PoolCfg o) (Logger o)
    (Balancer o) (BalancerCacheOpt o) (TracerCtl o) (StatsLevel o) v
    (RetryPolicy o).

Definition set_RetryPolicy v (o : Options) : Options :=
  mkOptions (Svr o) (Configs o) (Locks o) (Once o) (MWBs o) (IMWBs o)
    (Targets o) (Resolver o) (HTTPResolver o) (PoolCfg o) (Logger o)
    (Balancer o) (BalancerCacheOpt o) (TracerCtl o) (StatsLevel o) (RemoteOpt o)
    v.

(** The record and the slice an outcome leaves. *)
Definition record_of (r : Outcome) : Options :=
  match r with Returns o _ | Panics _ o _ => o end.

Definition slice_of (r : Outcome) : utils.Slice :=
  match r with Returns _ di | Panics _ _ di => di end.

(** A call made from inside an option's function: a panic of the callee
    goes through the caller, otherwise the caller goes on. *)
Definition and_then (r : Outcome) (k : Options -> utils.Slice -> Outcome) : Outcome :=
  match r with
  | Returns o di => k o di
  | Panics v o di => Panics v o di
  end.

(** Modelled from the spec: [OnceOrPanic] (see [OptionOnce]); the first call
    marks the guard, a later call panics.  The text of the panic is not given
    by the spec. *)
Definition OnceOrPanic (once : OptionOnce) : PanicValue + OptionOnce :=
  if used once
  then inl (PanicString "option has already been set")
  else inr {| used := true |}.

End internal_client.

(** ** package client: [option.go] *)

Import utils internal_client.

(** [fmt]'s [%v] of a [[]string]: the elements between brackets, separated
    by a space. *)
Definition fmt_strings (l : list string) : string :=
  "[" +:+ String.concat " " l +:+ "]".

(** [fmt]'s [%+v] of a slice of pointers to handles. *)
Definition fmt_pointers (l : list (option Handle)) : string :=
  fmt_strings (map (fun p => match p with Some h => fmt_v h | None => "<nil>" end) l).

(** [type Suite interface { Options() []Option }]: the options a suite
    returns, and the suite's renderings under [%T] and [%+v]. *)
Record Suite : Type := mkSuite {
  Suite_T : string;
  Suite_v : string;
  Suite_Options : list Option
}.

(** [for _, op := range ops { op.F(o, di) }] *)
Fixpoint range_F (ops : list Option) (o : Options) (di : Slice) : Outcome :=
  match ops with
  | [] => Returns o di
  | op :: ops' => and_then (F op o di) (range_F ops')
  end.

(** [WithSuite] adds a option suite for client. *)
Definition WithSuite (suite : Suite) : Option := {| F := fun o di =>
  let nested_Suite := Suite_T suite +:+ "(" +:+ Suite_v suite +:+ ")" in
  match range_F (Suite_Options suite) o [] with
  | Returns o nested_Options => Returns o (Push di (Nested nested_Suite nested_Options))
  | Panics v o _ => Panics v o di
  end |}.

(** *** What the file takes from other packages

    The functions, constants and constructors of other packages that
    [option.go] calls and that the options only pass on. *)
Class Imports : Type := {
  (* package transport: [tp.String()], the name [Unknown] it gives to a
     value that is no protocol, and the protocols named in this file *)
  Protocol_String : transport.Protocol -> string;
  Unknown : string;
  GRPC : transport.Protocol;
  TTHeader : transport.Protocol;
  (* packages nphttp2 and netpollmux: constructors of the pools and handler
     factories; each returns a pointer to a new object *)
  nphttp2_NewConnPool : Handle;
  nphttp2_NewCliTransHandlerFactory : Handle;
  netpollmux_NewMuxConnPool : Z -> Handle;
  netpollmux_NewCliTransHandlerFactory : Handle;
  (* package net: the error of [ResolveTCPAddr(network, address)] and of
     [ResolveUnixAddr(network, address)], [None] when nil *)
  ResolveTCPAddr : string -> string -> option string;
  ResolveUnixAddr : string -> string -> option string;
  (* package discovery *)
  DefaultWeight : Z;
  (* package connpool: [CheckPoolConfig(cfg)] returns a pointer to the
     checked configuration *)
  CheckPoolConfig : Handle -> Handle;
  (* package rpcinfo: the lock bits of the two timeouts *)
  BitRPCTimeout : Z;
  BitConnectTimeout : Z;
  (* package retry: the two values of [retry.Type] *)
  FailureType : retry.Type_;
  BackupType : retry.Type_;
  (* package utils *)
  GetFuncName : Handle -> string
}.

Section Client.

Context `{Imports}.

(** *** The options *)

(** [WithTransportProtocol] sets the transport protocol for client.
    [Protocol] has a [String] method, so [%v] of [tp] prints [tp.String()]. *)
Definition WithTransportProtocol (tp : transport.Protocol) : Option := {| F := fun o di =>
  let tpName := Protocol_String tp in
  if decide (tpName = Unknown)
  then Panics (PanicError ("WithTransportProtocol: invalid '" +:+ tpName +:+ "'")) o di
  else
    let o := if decide (tp = GRPC)
             then
               let o := set_RemoteOpt (remote.set_ConnPool (Some nphttp2_NewConnPool) (RemoteOpt o)) o in
               set_RemoteOpt (remote.set_CliHandlerFactory (Some nphttp2_NewCliTransHandlerFactory) (RemoteOpt o)) o
             else o in
    let di := Push di (Str ("WithTransportProtocol(" +:+ tpName +:+ ")")) in
    Returns (set_Configs (rpcinfo.SetTransportProtocol (Configs o) tp) o) di |}.

(** [WithMiddleware] adds middleware for client to handle request. *)
Definition WithMiddleware (mw : endpoint.Middleware) : Option :=
  let mwb := endpoint.ConstBuilder mw in
  {| F := fun o di =>
  let di := Push di (Str ("WithMiddleware(" +:+ GetFuncName mw +:+ ")")) in
  Returns (set_MWBs (MWBs o ++ [mwb]) o) di |}.

(** [WithMiddlewareBuilder] adds middleware that depend on context. *)
Definition WithMiddlewareBuilder (mwb : Handle) : Option := {| F := fun o di =>
  let di := Push di (Str ("WithMiddlewareBuilder(" +:+ GetFuncName mwb +:+ ")")) in
  Returns (set_MWBs (MWBs o ++ [endpoint.UserBuilder mwb]) o) di |}.

(** [WithInstanceMW] adds middleware for client to handle request after
    service discovery and loadbalance process. *)
Definition WithInstanceMW (mw : endpoint.Middleware) : Option :=
  let imwb := endpoint.ConstBuilder mw in
  {| F := fun o di =>
  let di := Push di (Str ("WithInstanceMW(" +:+ GetFuncName mw +:+ ")")) in
  Returns (set_IMWBs (IMWBs o ++ [imwb]) o) di |}.

(** [WithDestService] specifies the name of target service. *)
Definition WithDestService (svr : string) : Option := {| F := fun o di =>
  match OnceOrPanic (Once o) with
  | inl v => Panics v o di
  | inr once =>
    let o := set_Once once o in
    let di := Push di (Str ("WithDestService(" +:+ svr +:+ ")")) in
    Returns (set_Svr (rpcinfo.mkEndpointBasicInfo svr (rpcinfo.Tags (Svr o))) o) di
  end |}.

(** The loop of [WithHostPorts] over the addresses: the instances collected
    so far in [ins], or the panic raised at the first address that resolves
    neither as a TCP address nor as a unix address. *)
Fixpoint resolve_hostports (hostports : list string) (ins : list discovery.Instance)
  : PanicValue + list discovery.Instance :=
  match hostports with
  | [] => inr ins
  | hp :: hostports' =>
    match ResolveTCPAddr "tcp" hp with
    | None =>
      resolve_hostports hostports'
        (ins ++ [discovery.NewInstance "tcp" hp DefaultWeight None])
    | Some _ =>
      match ResolveUnixAddr "unix" hp with
      | None =>
        resolve_hostports hostports'
          (ins ++ [discovery.NewInstance "unix" hp DefaultWeight None])
      | Some _ => inl (PanicError ("WithHostPorts: invalid '" +:+ hp +:+ "'"))
      end
    end
  end.

(** The instance the loop of [WithHostPorts] appends for an address: on the
    TCP network when the address resolves as a TCP address, on the unix
    network otherwise (the loop has panicked when it resolves in neither
    way). *)
Definition instance_of (hp : string) : discovery.Instance :=
  match ResolveTCPAddr "tcp" hp with
  | None => discovery.NewInstance "tcp" hp DefaultWeight None
  | Some _ => discovery.NewInstance "unix" hp DefaultWeight None
  end.

(** [WithHostPorts] specifies the target instance addresses when doing
    service discovery.  It overwrites the results from the Resolver. *)
Definition WithHostPorts (hostports : list string) : Option := {| F := fun o di =>
  let di := Push di (Str ("WithHostPorts(" +:+ fmt_strings hostports +:+ ")")) in
  match resolve_hostports hostports [] with
  | inl v => Panics v o di
  | inr ins =>
    if Nat.eqb (length ins) 0
    then Panics (PanicString "WithHostPorts() requires at least one argument") o di
    else
      let o := set_Targets (String.concat "," hostports) o in
      let o := set_Resolver (Some (discovery.SynthesizedResolver
                 (fun ctx key =>
                    ({| discovery.Cacheable := true;
                        discovery.CacheKey := "fixed";
                        discovery.Instances := ins |}, None))
                 discovery.ReturnTargets)) o in
      Returns o di
  end |}.

(** [WithResolver] provides the Resolver for kitex client. *)
Definition WithResolver (r : Handle) : Option := {| F := fun o di =>
  let di := Push di (Str ("WithResolver(" +:+ fmt_T r +:+ ")")) in
  Returns (set_Resolver (Some (discovery.UserResolver r)) o) di |}.

(** [WithHTTPResolver] specifies resolver for url. *)
Definition WithHTTPResolver (r : Handle) : Option := {| F := fun o di =>
  let di := Push di (Str ("WithHTTPResolver(" +:+ fmt_T r +:+ ")")) in
  Returns (set_HTTPResolver (Some r) o) di |}.

(** [WithLongConnection] enables long connection with kitex's built-in
    pooling implementation. *)
Definition WithLongConnection (cfg : Handle) : Option := {| F := fun o di =>
  let di := Push di (Str ("WithLongConnection(" +:+ fmt_v cfg +:+ ")")) in
  match PoolCfg o with
  | None => Returns (set_PoolCfg (Some (CheckPoolConfig cfg)) o) di
  | Some _ => Returns o di
  end |}.

(** Modelled from the spec: [WithTransHandlerFactory] is an option of this
    package that is not in this file; it stores the handler factory, and, as
    every fragment does, it appends one trace entry with its name and
    argument. *)
Definition WithTransHandlerFactory (f : Handle) : Option := {| F := fun o di =>
  let di := Push di (Str ("WithTransHandlerFactory(" +:+ fmt_T f +:+ ")")) in
  Returns (set_RemoteOpt (remote.set_CliHandlerFactory (Some f) (RemoteOpt o)) o) di |}.

(** [WithMuxConnection] specifies the transport type to be mux. *)
Definition WithMuxConnection (connNum : Z) : Option := {| F := fun o di =>
  let di := Push di (Str "WithMuxConnection") in
  let o := set_RemoteOpt
             (remote.set_ConnPool (Some (netpollmux_NewMuxConnPool connNum)) (RemoteOpt o)) o in
  and_then (F (WithTransHandlerFactory netpollmux_NewCliTransHandlerFactory) o di)
    (fun o di =>
       Returns (set_Configs (rpcinfo.SetTransportProtocol (Configs o) TTHeader) o) di) |}.

(** [WithLogger] sets the Logger for kitex client. *)
Definition WithLogger (logger : Handle) : Option := {| F := fun o di =>
  let di := Push di (Str ("WithLogger(" +:+ fmt_T logger +:+ ")")) in
  Returns (set_Logger (Some logger) o) di |}.

(** [WithLoadBalancer] sets the loadbalancer for client. *)
Definition WithLoadBalancer (lb : Handle) (opts : list (option Handle)) : Option := {| F := fun o di =>
  let di := Push di (Str ("WithLoadBalancer(" +:+ fmt_v lb +:+ ", " +:+ fmt_pointers opts +:+ ")")) in
  let o := set_Balancer (Some lb) o in
  match opts with
  | opts0 :: _ => Returns (set_BalancerCacheOpt opts0 o) di
  | [] => Returns o di
  end |}.

(** [WithRPCTimeout] specifies the RPC timeout. *)
Definition WithRPCTimeout (d : time.Duration) : Option := {| F := fun o di =>
  let di := Push di (Str ("WithRPCTimeout(" +:+ pretty (time.Milliseconds d) +:+ "ms)")) in
  let o := set_Configs (rpcinfo.SetRPCTimeout (Configs o) d) o in
  Returns (set_Locks (mkConfigLocks (Z.lor (Bits (Locks o)) BitRPCTimeout) (Tags (Locks o))) o) di |}.

(** [WithConnectTimeout] specifies the connection timeout. *)
Definition WithConnectTimeout (d : time.Duration) : Option := {| F := fun o di =>
  let di := Push di (Str ("WithConnectTimeout(" +:+ pretty (time.Milliseconds d) +:+ "ms)")) in
  let o := set_Configs (rpcinfo.SetConnectTimeout (Configs o) d) o in
  Returns (set_Locks (mkConfigLocks (Z.lor (Bits (Locks o)) BitConnectTimeout) (Tags (Locks o))) o) di |}.

(** [WithTag] sets the customize tag for service discovery, eg: idc, cluster. *)
Definition WithTag (key val : string) : Option := {| F := fun o di =>
  let di := Push di (Str ("WithTag(" +:+ key +:+ "=" +:+ val +:+ ")")) in
  let o := set_Svr (rpcinfo.mkEndpointBasicInfo (rpcinfo.ServiceName (Svr o))
                      (<[key := val]> (rpcinfo.Tags (Svr o)))) o in
  Returns (set_Locks (mkConfigLocks (Bits (Locks o)) ({[key]} ∪ Tags (Locks o))) o) di |}.

(** [WithTracer] adds a tracer to client. *)
Definition WithTracer (c : Handle) : Option := {| F := fun o di =>
  let di := Push di (Str ("WithTracer(" +:+ fmt_T c +:+ "{" +:+ fmt_v c +:+ "})")) in
  let ctl := match TracerCtl o with
             | None => internal_stats.zero
             | Some ctl => ctl
             end in
  Returns (set_TracerCtl (Some (internal_stats.Append ctl c)) o) di |}.

(** [WithStatsLevel] sets the stats level for client. *)
Definition WithStatsLevel (level : Handle) : Option := {| F := fun o di =>
  let di := Push di (Str ("WithStatsLevel(" +:+ fmt_v level +:+ ")")) in
  Returns (set_StatsLevel level o) di |}.

(** [WithCodec] to set a codec that handle other protocols. *)
Definition WithCodec (c : Handle) : Option := {| F := fun o di =>
  let di := Push di (Str ("WithCodec(" +:+ fmt_v c +:+ ")")) in
  Returns (set_RemoteOpt (remote.set_Codec (Some c) (RemoteOpt o)) o) di |}.

(** [WithPayloadCodec] to set a payloadCodec that handle other payload. *)
Definition WithPayloadCodec (c : Handle) : Option := {| F := fun o di =>
  let di := Push di (Str ("WithPayloadCodec(" +:+ fmt_v c +:+ ")")) in
  Returns (set_RemoteOpt (remote.set_PayloadCodec (Some c) (RemoteOpt o)) o) di |}.

(** [WithConnReporterEnabled] to enable reporting connection pool stats. *)
Definition WithConnReporterEnabled : Option := {| F := fun o di =>
  let di := Push di (Str "WithConnReporterEnabled()") in
  Returns (set_RemoteOpt (remote.set_EnableConnPoolReporter true (RemoteOpt o)) o) di |}.

(** [WithFailureRetry] sets the failure retry policy for client.  [p] is a
    pointer, [None] when nil. *)
Definition WithFailureRetry (p : option retry.FailurePolicy) : Option := {| F := fun o di =>
  match p with
  | None => Returns o di
  | Some fp =>
    let di := Push di (Str ("WithFailureRetry(" +:+ fmt_v fp +:+ ")")) in
    let policy := match RetryPolicy o with
                  | None => retry.zero
                  | Some policy => policy
                  end in
    let o := set_RetryPolicy (Some policy) o in
    match retry.BackupPolicy' policy with
    | Some _ =>
      Panics (PanicString "BackupPolicy has been setup, cannot support Failure Retry at same time") o di
    | None =>
      Returns (set_RetryPolicy (Some
        {| retry.Enable := true;
           retry.Type' := FailureType;
           retry.FailurePolicy' := p;
           retry.BackupPolicy' := retry.BackupPolicy' policy |}) o) di
    end
  end |}.

(** [WithBackupRequest] sets the backup request policy for client.  [p] is
    a pointer, [None] when nil. *)
Definition WithBackupRequest (p : option retry.BackupPolicy) : Option := {| F := fun o di =>
  match p with
  | None => Returns o di
  | Some bp =>
    let di := Push di (Str ("WithBackupRequest(" +:+ fmt_v bp +:+ ")")) in
    let policy := match RetryPolicy o with
                  | None => retry.zero
                  | Some policy => policy
                  end in
    let o := set_RetryPolicy (Some policy) o in
    match retry.FailurePolicy' policy with
    | Some _ =>
      Panics (PanicString "Failure Retry has been setup, cannot support Backup Request at same time") o di
    | None =>
      Returns (set_RetryPolicy (Some
        {| retry.Enable := true;
           retry.Type' := BackupType;
           retry.FailurePolicy' := retry.FailurePolicy' policy;
           retry.BackupPolicy' := p |}) o) di
    end
  end |}.

(** The retry policy of [o] holds no backup policy. *)
Definition no_backup (o : Options) : Prop :=
  match RetryPolicy o with
  | Some policy => retry.BackupPolicy' policy = None
  | None => True
  end.

(** The retry policy of [o] holds no failure policy. *)
Definition no_failure (o : Options) : Prop :=
  match RetryPolicy o with
  | Some policy => retry.FailurePolicy' policy = None
  | None => True
  end.

(** *** Calls of the constructors

    [Call] names a call of one of the constructors above with its arguments,
    a suite being given by its renderings and the calls that build its
    options; [eval] is the option the call returns.  The properties that
    speak of every option of this file quantify over [Call]. *)
Inductive Call : Type :=
| CallWithTransportProtocol (tp : transport.Protocol)
| CallWithSuite (T v : string) (options : list Call)
| CallWithMiddleware (mw : endpoint.Middleware)
| CallWithMiddlewareBuilder (mwb : Handle)
| CallWithInstanceMW (mw : endpoint.Middleware)
| CallWithDestService (svr : string)
| CallWithHostPorts (hostports : list string)
| CallWithResolver (r : Handle)
| CallWithHTTPResolver (r : Handle)
| CallWithLongConnection (cfg : Handle)
| CallWithMuxConnection (connNum : Z)
| CallWithLogger (logger : Handle)
| CallWithLoadBalancer (lb : Handle) (opts : list (option Handle))
| CallWithRPCTimeout (d : time.Duration)
| CallWithConnectTimeout (d : time.Duration)
| CallWithTag (key val : string)
| CallWithTracer (c : Handle)
| CallWithStatsLevel (level : Handle)
| CallWithCodec (c : Handle)
| CallWithPayloadCodec (c : Handle)
| CallWithConnReporterEnabled
| CallWithFailureRetry (p : option retry.FailurePolicy)
| CallWithBackupRequest (p : option retry.BackupPolicy).

Fixpoint eval (c : Call) : Option :=
  match c with
  | CallWithTransportProtocol tp => WithTransportProtocol tp
  | CallWithSuite T v options => WithSuite (mkSuite T v (map eval options))
  | CallWithMiddleware mw => WithMiddleware mw
  | CallWithMiddlewareBuilder mwb => WithMiddlewareBuilder mwb
  | CallWithInstanceMW mw => WithInstanceMW mw
  | CallWithDestService svr => WithDestService svr
  | CallWithHostPorts hostports => WithHostPorts hostports
  | CallWithResolver r => WithResolver r
  | CallWithHTTPResolver r => WithHTTPResolver r
  | CallWithLongConnection cfg => WithLongConnection cfg
  | CallWithMuxConnection connNum => WithMuxConnection connNum
  | CallWithLogger logger => WithLogger logger
  | CallWithLoadBalancer lb opts => WithLoadBalancer lb opts
  | CallWithRPCTimeout d => WithRPCTimeout d
  | CallWithConnectTimeout d => WithConnectTimeout d
  | CallWithTag key val => WithTag key val
  | CallWithTracer c => WithTracer c
  | CallWithStatsLevel level => WithStatsLevel level
  | CallWithCodec c => WithCodec c
  | CallWithPayloadCodec c => WithPayloadCodec c
  | CallWithConnReporterEnabled => WithConnReporterEnabled
  | CallWithFailureRetry p => WithFailureRetry p
  | CallWithBackupRequest p => WithBackupRequest p
  end.

(** The trace entries a call is expected to leave when it returns, in the
    order it pushes them: the description of the option, and for a suite one
    nested entry that holds the entries of its options. *)
Fixpoint entries (c : Call) : Slice :=
  match c with
  | CallWithTransportProtocol tp =>
    [Str ("WithTransportProtocol(" +:+ Protocol_String tp +:+ ")")]
  | CallWithSuite T v options =>
    [Nested (T +:+ "(" +:+ v +:+ ")") (concat (map entries options))]
  | CallWithMiddleware mw => [Str ("WithMiddleware(" +:+ GetFuncName mw +:+ ")")]
  | CallWithMiddlewareBuilder mwb =>
    [Str ("WithMiddlewareBuilder(" +:+ GetFuncName mwb +:+ ")")]
  | CallWithInstanceMW mw => [Str ("WithInstanceMW(" +:+ GetFuncName mw +:+ ")")]
  | CallWithDestService svr => [Str ("WithDestService(" +:+ svr +:+ ")")]
  | CallWithHostPorts hostports =>
    [Str ("WithHostPorts(" +:+ fmt_strings hostports +:+ ")")]
  | CallWithResolver r => [Str ("WithResolver(" +:+ fmt_T r +:+ ")")]
  | CallWithHTTPResolver r => [Str ("WithHTTPResolver(" +:+ fmt_T r +:+ ")")]
  | CallWithLongConnection cfg => [Str ("WithLongConnection(" +:+ fmt_v cfg +:+ ")")]
  | CallWithMuxConnection connNum =>
    [Str "WithMuxConnection";
     Str ("WithTransHandlerFactory(" +:+ fmt_T netpollmux_NewCliTransHandlerFactory +:+ ")")]
  | CallWithLogger logger => [Str ("WithLogger(" +:+ fmt_T logger +:+ ")")]
  | CallWithLoadBalancer lb opts =>
    [Str ("WithLoadBalancer(" +:+ fmt_v lb +:+ ", " +:+ fmt_pointers opts +:+ ")")]
  | CallWithRPCTimeout d =>
    [Str ("WithRPCTimeout(" +:+ pretty (time.Milliseconds d) +:+ "ms)")]
  | CallWithConnectTimeout d =>
    [Str ("WithConnectTimeout(" +:+ pretty (time.Milliseconds d) +:+ "ms)")]
  | CallWithTag key val => [Str ("WithTag(" +:+ key +:+ "=" +:+ val +:+ ")")]
  | CallWithTracer c => [Str ("WithTracer(" +:+ fmt_T c +:+ "{" +:+ fmt_v c +:+ "})")]
  | CallWithStatsLevel level => [Str ("WithStatsLevel(" +:+ fmt_v level +:+ ")")]
  | CallWithCodec c => [Str ("WithCodec(" +:+ fmt_v c +:+ ")")]
  | CallWithPayloadCodec c => [Str ("WithPayloadCodec(" +:+ fmt_v c +:+ ")")]
  | CallWithConnReporterEnabled => [Str "WithConnReporterEnabled()"]
  | CallWithFailureRetry None => []
  | CallWithFailureRetry (Some fp) => [Str ("WithFailureRetry(" +:+ fmt_v fp +:+ ")")]
  | CallWithBackupRequest None => []
  | CallWithBackupRequest (Some bp) => [Str ("WithBackupRequest(" +:+ fmt_v bp +:+ ")")]
  end.

(** The number of entries a call pushes when it returns. *)
Definition pushes (c : Call) : nat :=
  match c with
  | CallWithFailureRetry None | CallWithBackupRequest None => 0
  | CallWithMuxConnection _ => 2
  | _ => 1
  end.

End Client.

(** ** What a call adds, and what the options keep

    Notions used to state what sequences of options do to the record. *)

(** A call other than [WithSuite]. *)
Definition single (c : Call) : Prop :=
  forall T v options, c <> CallWithSuite T v options.

(** The middleware builders a call appends to [o.MWBs], in order; a suite
    appends those of its options. *)
Fixpoint mwbs_of (c : Call) : list endpoint.MiddlewareBuilder :=
  match c with
  | CallWithMiddleware mw => [endpoint.ConstBuilder mw]
  | CallWithMiddlewareBuilder mwb => [endpoint.UserBuilder mwb]
  | CallWithSuite _ _ options => concat (map mwbs_of options)
  | _ => []
  end.

(** The middleware builders a call appends to [o.IMWBs]. *)
Fixpoint imwbs_of (c : Call) : list endpoint.MiddlewareBuilder :=
  match c with
  | CallWithInstanceMW mw => [endpoint.ConstBuilder mw]
  | CallWithSuite _ _ options => concat (map imwbs_of options)
  | _ => []
  end.

(** The tracers a call appends to the tracer controller. *)
Fixpoint tracers_of (c : Call) : list Handle :=
  match c with
  | CallWithTracer t => [t]
  | CallWithSuite _ _ options => concat (map tracers_of options)
  | _ => []
  end.

(** The tracers of the record; none while [o.TracerCtl] is nil. *)
Definition tracers_in (o : Options) : list Handle :=
  match TracerCtl o with
  | Some ctl => internal_stats.tracers ctl
  | None => []
  end.


(** Two outcomes with the same effect on the record: both returned or both
    panicked with the same value, and left the same record. *)
Definition same_effect (r1 r2 : Outcome) : Prop :=
  match r1, r2 with
  | Returns o1 _, Returns o2 _ => o1 = o2
  | Panics v1 o1 _, Panics v2 o2 _ => v1 = v2 /\ o1 = o2
  | _, _ => False
  end.

(** Every key of [o.Svr.Tags] is in [o.Locks.Tags]. *)
Definition tags_locked (o : Options) : Prop :=
  dom (rpcinfo.Tags (Svr o)) ⊆ Tags (Locks o).

(** The retry policy of [o] does not hold a failure policy and a backup
    policy at once. *)
Definition retry_exclusive (o : Options) : Prop :=
  match RetryPolicy o with
  | Some policy =>
    retry.FailurePolicy' policy = None \/ retry.BackupPolicy' policy = None
  | None => True
  end.

(** The locks of [o] are among the locks of [o']: the lock bits of [o] are
    set in [o'] and the locked tag keys of [o] are locked in [o']. *)
Definition locks_kept (o o' : Options) : Prop :=
  Z.land (Bits (Locks o)) (Bits (Locks o')) = Bits (Locks o) /\
  Tags (Locks o) ⊆ Tags (Locks o').

(** Once the guard of [WithDestService] is used it stays used and the
    service name stays as it is. *)
Definition service_name_kept (o o' : Options) : Prop :=
  used (Once o) = true ->
  used (Once o') = true /\
  rpcinfo.ServiceName (Svr o') = rpcinfo.ServiceName (Svr o).

(** ** Values to run the options on *)

(** The options record before any option is applied: every field at its
    zero value, with the allocated parts empty. *)
Definition blank : Options := {|
  Svr := rpcinfo.mkEndpointBasicInfo "" ∅;
  Configs := rpcinfo.mkRPCConfig 0 0 0;
  Locks := mkConfigLocks 0 ∅;
  Once := mkOptionOnce false;
  MWBs := [];
  IMWBs := [];
  Targets := "";
  Resolver := None;
  HTTPResolver := None;
  PoolCfg := None;
  Logger := None;
  Balancer := None;
  BalancerCacheOpt := None;
  TracerCtl := None;
  StatsLevel := mkHandle 1 "stats.Level" "0";
  RemoteOpt := remote.mkClientOption None None None None false;
  RetryPolicy := None
|}.

(** An instance of the imports for running the options on concrete inputs.
    The resolvers of package [net] are stand-ins: here a TCP address needs a
    colon and a unix address a leading slash. *)
Fixpoint has_colon (s : string) : bool :=
  match s with
  | EmptyString => false
  | String a s' => if Ascii.eqb a ":"%char then true else has_colon s'
  end.

Definition sample_imports : Imports := {|
  Protocol_String tp :=
    if decide (tp = 2) then "TTHeader"
    else if decide (tp = 16) then "GRPC"
    else if decide (tp = 4) then "Framed"
    else "Unknown";
  Unknown := "Unknown";
  GRPC := 16;
  TTHeader := 2;
  nphttp2_NewConnPool := mkHandle 10 "*nphttp2.connPool" "&{}";
  nphttp2_NewCliTransHandlerFactory := mkHandle 11 "*nphttp2.cliTransHandlerFactory" "&{}";
  netpollmux_NewMuxConnPool n := mkHandle 12 "*netpollmux.MuxPool" (pretty n);
  netpollmux_NewCliTransHandlerFactory := mkHandle 13 "*netpollmux.cliTransHandlerFactory" "&{}";
  ResolveTCPAddr network address :=
    if has_colon address then None else Some "missing port in address";
  ResolveUnixAddr network address :=
    match address with
    | String "/"%char _ => None
    | _ => Some "not a socket path"
    end;
  DefaultWeight := 10;
  CheckPoolConfig cfg := cfg;
  BitRPCTimeout := 1;
  BitConnectTimeout := 2;
  FailureType := 0;
  BackupType := 1;
  GetFuncName h := fmt_v h
|}.

(** Sample handles and records. *)
Definition failure_policy : retry.FailurePolicy :=
  mkHandle 20 "retry.FailurePolicy" "{StopPolicy:{MaxRetryTimes:2}}".

Definition backup_policy : retry.BackupPolicy :=
  mkHandle 21 "retry.BackupPolicy" "{RetryDelayMS:10}".

Definition idle_config : Handle := mkHandle 22 "connpool.IdleConfig" "{MaxIdlePerAddress:1}".

Definition other_idle_config : Handle := mkHandle 23 "connpool.IdleConfig" "{MaxIdlePerAddress:8}".

(** A record whose retry policy holds a backup policy. *)
Definition with_backup : Options :=
  set_RetryPolicy (Some (retry.mkPolicy true 1 None (Some backup_policy))) blank.

(** A record whose retry policy holds a failure policy. *)
Definition with_failure : Options :=
  set_RetryPolicy (Some (retry.mkPolicy true 0 (Some failure_policy) None)) blank.

(** A record with a pool configuration. *)
Definition with_pool : Options := set_PoolCfg (Some idle_config) blank.

(** A sequence of calls with a suite inside a suite. *)
Definition sample_calls : list Call :=
  [ CallWithRPCTimeout 1000000000;
    CallWithSuite "client.suite" "{}"
      [ CallWithTag "cluster" "a";
        CallWithSuite "client.inner" "{}" [ CallWithConnReporterEnabled ];
        CallWithMuxConnection 2 ];
    CallWithFailureRetry None;
    CallWithDestService "echo" ].

(** Sample tracers and middlewares. *)
Definition tracer_a : Handle := mkHandle 30 "*stats.tracerA" "&{}".

Definition tracer_b : Handle := mkHandle 31 "*stats.tracerB" "&{}".

Definition middleware_a : endpoint.Middleware := mkHandle 32 "endpoint.Middleware" "mwA".

Definition middleware_b : endpoint.Middleware := mkHandle 33 "endpoint.Middleware" "mwB".

Definition builder_c : Handle := mkHandle 34 "endpoint.MiddlewareBuilder" "mwbC".

(** A sequence of calls that cannot panic, with tracers and middlewares
    inside and outside a suite. *)
Definition quiet_calls : list Call :=
  [ CallWithTracer tracer_a;
    CallWithMiddleware middleware_a;
    CallWithSuite "client.suite" "{}"
      [ CallWithInstanceMW middleware_b;
        CallWithMiddlewareBuilder builder_c;
        CallWithTracer tracer_b;
        CallWithTag "cluster" "a" ];
    CallWithMiddleware middleware_b;
    CallWithRPCTimeout 1000000000 ].

(** A sequence of calls in which the second [WithDestService] panics. *)
Definition failing_calls : list Call :=
  [ CallWithTag "cluster" "a";
    CallWithDestService "echo";
    CallWithFailureRetry (Some failure_policy);
    CallWithDestService "again";
    CallWithLogger tracer_a ].

(** * Properties *)

Section Properties.

Context `{Imports}.

(** ** Calls and the loop over options *)

(** Induction on a call, with the hypothesis available for every option of
    a suite. *)
Lemma Call_nested_ind (P : Call -> Prop) :
  (forall T v options, Forall P options -> P (CallWithSuite T v options)) ->
  (forall c, (forall T v options, c <> CallWithSuite T v options) -> P c) ->
  forall c, P c.
Proof.
  intros Hsuite Hleaf.
  fix IH 1.
  intros c. destruct c as [ | T v options | | | | | | | | | | | | | | | | | | | | | ].
  2: { apply Hsuite. induction options as [ | c cs IHcs ]; constructor; auto. }
  all: apply Hleaf; discriminate.
Qed.

Lemma and_then_returns r k o' di' :
  and_then r k = Returns o' di' ->
  exists o1 di1, r = Returns o1 di1 /\ k o1 di1 = Returns o' di'.
Proof. destruct r; simpl; [ eauto | discriminate ]. Qed.

(** The loop over a list of options that each extend the slice they are
    given extends it by the concatenation, in the order of the list. *)
Lemma range_F_trace (cs : list Call) :
  Forall (fun c => forall o di o' di',
            F (eval c) o di = Returns o' di' -> di' = di ++ entries c) cs ->
  forall o di o' di',
    range_F (map eval cs) o di = Returns o' di' ->
    di' = di ++ concat (map entries cs).
Proof.
  induction 1 as [ | c cs Hc _ IH ]; intros o di o' di' Hrun; simpl in *.
  - injection Hrun as _ <-. now rewrite app_nil_r.
  - apply and_then_returns in Hrun as (o1 & di1 & H1 & H2).
    apply Hc in H1. apply IH in H2. subst. now rewrite <- app_assoc.
Qed.

(** What [WithSuite] does with the slice, for a suite of any options. *)
Lemma WithSuite_returns (suite : Suite) o di o' di' :
  F (WithSuite suite) o di = Returns o' di' ->
  exists nested,
    range_F (Suite_Options suite) o [] = Returns o' nested /\
    di' = di ++ [Nested (Suite_T suite +:+ "(" +:+ Suite_v suite +:+ ")") nested].
Proof.
  unfold WithSuite; simpl.
  destruct (range_F (Suite_Options suite) o []) as [ o1 nested | ]; [ | discriminate ].
  intros [= <- <-]. now exists nested.
Qed.

(** A panic inside a suite leaves the slice of the caller as it was. *)
Lemma WithSuite_panics (suite : Suite) o di v o' di' :
  F (WithSuite suite) o di = Panics v o' di' -> di' = di.
Proof.
  unfold WithSuite; simpl.
  destruct (range_F (Suite_Options suite) o []); [ discriminate | ].
  now intros [= _ _ <-].
Qed.

(** Every call that returns has appended its [entries] to the slice. *)
Lemma eval_trace (c : Call) :
  forall o di o' di', F (eval c) o di = Returns o' di' -> di' = di ++ entries c.
Proof.
  induction c as [ T v options IH | c Hleaf ] using Call_nested_ind;
    intros o di o' di' Hrun.
  - apply WithSuite_returns in Hrun as (nested & Hrun & ->). simpl in Hrun.
    apply (range_F_trace _ IH) in Hrun. simpl in Hrun. now subst.
  - destruct c; try (now exfalso; eapply Hleaf); clear Hleaf;
      simpl in Hrun; unfold Push in Hrun.
    all: repeat match type of Hrun with
         | context [ decide ?P ] => destruct (decide P)
         | context [ match ?x with _ => _ end ] => destruct x eqn:?
         end; try discriminate.
    all: try (injection Hrun as _ <-; try rewrite app_nil_r; try rewrite <- app_assoc; reflexivity).
Qed.

Lemma entries_length (c : Call) : length (entries c) = pushes c.
Proof. destruct c as [ | | | | | | | | | | | | | | | | | | | | | [ ? | ] | [ ? | ] ]; reflexivity. Qed.

(** ** The trace *)

(** C1 (as amended).  An option of this file that returns has appended
    exactly one entry to the slice it was given, with two exceptions:
    [WithFailureRetry] and [WithBackupRequest] given a nil policy append
    none, and [WithMuxConnection] appends two, its own and the one of the
    [WithTransHandlerFactory] it applies. *)
Theorem returned_option_pushes (c : Call) o di o' di' :
  F (eval c) o di = Returns o' di' ->
  exists es, di' = di ++ es /\ length es = pushes c.
Proof.
  intros Hrun. exists (entries c). split.
  - now apply eval_trace in Hrun.
  - apply entries_length.
Qed.

(** C3.  When a sequence of options is applied and none panics, the slice
    grows by the entries of the options in the order of the sequence; a
    suite stands in it, at the place of the suite, as one nested entry that
    carries the suite's label and, inside, the entries of the suite's own
    options in their order, suites among them nested in the same way. *)
Theorem trace_follows_application (cs : list Call) o di o' di' :
  range_F (map eval cs) o di = Returns o' di' ->
  di' = di ++ concat (map entries cs) /\
  forall before T v options after,
    cs = before ++ CallWithSuite T v options :: after ->
    di' = di ++ concat (map entries before)
             ++ [Nested (T +:+ "(" +:+ v +:+ ")") (concat (map entries options))]
             ++ concat (map entries after).
Proof.
  intros Hrun.
  assert (Htrace : di' = di ++ concat (map entries cs)).
  { revert Hrun. apply range_F_trace.
    apply Forall_forall. intros c _. apply eval_trace. }
  split; [ exact Htrace | ].
  intros before T v options after ->.
  rewrite Htrace, map_app, concat_app. reflexivity.
Qed.

(** ** Retry policies *)

(** C10.  [WithFailureRetry] and [WithBackupRequest] given a nil policy
    return at once: the options record and the slice are as they were,
    whatever the retry policy of the record is. *)
Theorem nil_policy_changes_nothing o di :
  F (WithFailureRetry None) o di = Returns o di /\
  F (WithBackupRequest None) o di = Returns o di.
Proof. split; reflexivity. Qed.

Lemma set_RetryPolicy_same o policy :
  RetryPolicy o = Some policy -> set_RetryPolicy (Some policy) o = o.
Proof. destruct o; simpl; now intros ->. Qed.

(** C2.  With a backup policy present [WithFailureRetry] panics, and the
    panic value starts with [BackupPolicy]; with a failure policy present
    [WithBackupRequest] panics, and the panic value starts with
    [Failure Retry].  In both cases the record is as it was.  Without the
    other policy present each of the two returns and leaves a retry policy
    of its own type, enabled, that holds the policy given; after either one
    has returned, the other one panics. *)
Theorem retry_policies_exclude_each_other o di :
  (forall fp policy bp,
     RetryPolicy o = Some policy -> retry.BackupPolicy' policy = Some bp ->
     exists rest,
       F (WithFailureRetry (Some fp)) o di =
         Panics (PanicString ("BackupPolicy" +:+ rest)) o
                (di ++ [Str ("WithFailureRetry(" +:+ fmt_v fp +:+ ")")])) /\
  (forall bp policy fp,
     RetryPolicy o = Some policy -> retry.FailurePolicy' policy = Some fp ->
     exists rest,
       F (WithBackupRequest (Some bp)) o di =
         Panics (PanicString ("Failure Retry" +:+ rest)) o
                (di ++ [Str ("WithBackupRequest(" +:+ fmt_v bp +:+ ")")])) /\
  (forall fp,
     no_backup o ->
     exists o' di' policy,
       F (WithFailureRetry (Some fp)) o di = Returns o' di' /\
       RetryPolicy o' = Some policy /\
       retry.Type' policy = FailureType /\
       retry.Enable policy = true /\
       retry.FailurePolicy' policy = Some fp /\
       (forall bp, exists v o2 di2,
          F (WithBackupRequest (Some bp)) o' di' = Panics v o2 di2)) /\
  (forall bp,
     no_failure o ->
     exists o' di' policy,
       F (WithBackupRequest (Some bp)) o di = Returns o' di' /\
       RetryPolicy o' = Some policy /\
       retry.Type' policy = BackupType /\
       retry.Enable policy = true /\
       retry.BackupPolicy' policy = Some bp /\
       (forall fp, exists v o2 di2,
          F (WithFailureRetry (Some fp)) o' di' = Panics v o2 di2)).
Proof.
  repeat split.
  - intros fp policy bp Hpol Hbp. eexists. simpl.
    rewrite Hpol, Hbp, (set_RetryPolicy_same _ _ Hpol). reflexivity.
  - intros bp policy fp Hpol Hfp. eexists. simpl.
    rewrite Hpol, Hfp, (set_RetryPolicy_same _ _ Hpol). reflexivity.
  - intros fp Hno. unfold no_backup in Hno. simpl.
    destruct (RetryPolicy o) as [ policy | ] eqn:Hpol; simpl.
    + rewrite Hno. do 3 eexists. repeat split; try reflexivity.
      intros bp. simpl. eauto.
    + do 3 eexists. repeat split; try reflexivity.
      intros bp. simpl. eauto.
  - intros bp Hno. unfold no_failure in Hno. simpl.
    destruct (RetryPolicy o) as [ policy | ] eqn:Hpol; simpl.
    + rewrite Hno. do 3 eexists. repeat split; try reflexivity.
      intros fp. simpl. eauto.
    + do 3 eexists. repeat split; try reflexivity.
      intros fp. simpl. eauto.
Qed.

(** ** The fixed address list *)

(** The instance [WithHostPorts] builds for an address that resolves. *)
Lemma resolve_hostports_ok hostports :
  Forall (fun hp => ResolveTCPAddr "tcp" hp = None \/ ResolveUnixAddr "unix" hp = None)
         hostports ->
  forall ins,
    resolve_hostports hostports ins = inr (ins ++ map instance_of hostports).
Proof.
  induction 1 as [ | hp hostports Hhp _ IH ]; intros ins; simpl.
  - now rewrite app_nil_r.
  - unfold instance_of at 1.
    destruct (ResolveTCPAddr "tcp" hp) eqn:Htcp.
    + destruct Hhp as [ | -> ]; [ discriminate | ].
      rewrite IH, <- app_assoc. reflexivity.
    + rewrite IH, <- app_assoc. reflexivity.
Qed.



(** C5.  Given at least one address, all of which resolve, [WithHostPorts]
    returns and installs a resolver whose function, for every context and
    key, returns the same result: cacheable, with the cache key [fixed], and
    with one instance per address given, in the order given. *)
Theorem WithHostPorts_installs_fixed_resolver o di hostports :
  hostports <> [] ->
  Forall (fun hp => ResolveTCPAddr "tcp" hp = None \/ ResolveUnixAddr "unix" hp = None)
         hostports ->
  exists o' di' resolve name ins,
    F (WithHostPorts hostports) o di = Returns o' di' /\
    Resolver o' = Some (discovery.SynthesizedResolver resolve name) /\
    (forall ctx key,
       resolve ctx key =
         ({| discovery.Cacheable := true;
             discovery.CacheKey := "fixed";
             discovery.Instances := ins |}, None)) /\
    length ins = length hostports /\
    Forall2 (fun hp i => discovery.Address i = hp) hostports ins /\
    ins = map instance_of hostports.
Proof.
  intros Hne Hall. simpl.
  rewrite (resolve_hostports_ok _ Hall []). simpl.
  destruct hostports as [ | hp hostports ]; [ congruence | ]. simpl.
  do 5 eexists. split; [ reflexivity | ]. simpl.
  split; [ reflexivity | ].
  split; [ reflexivity | ].
  split; [ simpl; now rewrite length_map | ].
  split; [ | reflexivity ].
  constructor; [ unfold instance_of; now destruct (ResolveTCPAddr "tcp" hp) | ].
  clear. induction hostports as [ | hp' hostports IH ]; constructor; auto.
  unfold instance_of; now destruct (ResolveTCPAddr "tcp" hp').
Qed.

(** ** The transport protocol *)

(** C6.  [WithTransportProtocol] given a value whose name is [Unknown]
    panics with the options record and the slice as they were.  Given the
    GRPC protocol it returns with the transport protocol set and with a
    connection pool and a handler factory installed.  Given another known
    protocol it returns with the transport protocol set and every other
    field of the record as it was. *)
Theorem WithTransportProtocol_cases o di tp :
  (Protocol_String tp = Unknown ->
   exists v, F (WithTransportProtocol tp) o di = Panics v o di) /\
  (Protocol_String tp <> Unknown -> tp = GRPC ->
   exists o' di',
     F (WithTransportProtocol tp) o di = Returns o' di' /\
     rpcinfo.TransportProtocol (Configs o') = tp /\
     remote.ConnPool (RemoteOpt o') <> None /\
     remote.CliHandlerFactory (RemoteOpt o') <> None) /\
  (Protocol_String tp <> Unknown -> tp <> GRPC ->
   exists o' di',
     F (WithTransportProtocol tp) o di = Returns o' di' /\
     rpcinfo.TransportProtocol (Configs o') = tp /\
     o' = set_Configs
            (rpcinfo.mkRPCConfig (rpcinfo.RPCTimeout (Configs o))
               (rpcinfo.ConnectTimeout (Configs o)) tp) o).
Proof.
  repeat split.
  - intros Hname. simpl. destruct (decide (Protocol_String tp = Unknown)); [ | tauto ].
    eauto.
  - intros Hname Hgrpc. simpl.
    destruct (decide (Protocol_String tp = Unknown)); [ tauto | ].
    destruct (decide (tp = GRPC)); [ | tauto ].
    do 2 eexists. repeat split; simpl; discriminate.
  - intros Hname Hother. simpl.
    destruct (decide (Protocol_String tp = Unknown)); [ tauto | ].
    destruct (decide (tp = GRPC)); [ tauto | ].
    do 2 eexists. repeat split.
Qed.

(** ** The service name *)

(** C7.  After [WithDestService] has returned the service name is the one
    it was given, and [WithDestService] applied again, with any name, panics
    and leaves the options record, and so the service name, and the slice as
    the first application left them. *)
Theorem WithDestService_twice o di svr1 svr2 o1 di1 :
  F (WithDestService svr1) o di = Returns o1 di1 ->
  rpcinfo.ServiceName (Svr o1) = svr1 /\
  exists v o2 di2,
    F (WithDestService svr2) o1 di1 = Panics v o2 di2 /\
    o2 = o1 /\ di2 = di1 /\ rpcinfo.ServiceName (Svr o2) = svr1.
Proof.
  simpl. unfold OnceOrPanic.
  destruct (used (Once o)) eqn:Hused; [ discriminate | ].
  intros [= <- <-]. simpl. split; [ reflexivity | ].
  do 3 eexists. repeat split.
Qed.

(** ** Timeouts and locks *)

Lemma lor_sets_bits (bits bit : Z) : Z.land (Z.lor bits bit) bit = bit.
Proof.
  apply Z.bits_inj'. intros n _.
  rewrite Z.land_spec, Z.lor_spec. destruct (Z.testbit bits n), (Z.testbit bit n); reflexivity.
Qed.

Lemma lor_twice (bits bit : Z) : Z.lor (Z.lor bits bit) bit = Z.lor bits bit.
Proof. now rewrite <- Z.lor_assoc, Z.lor_diag. Qed.

(** C8.  [WithRPCTimeout] returns with the RPC timeout set to the value
    given and with the bits of [BitRPCTimeout] set in the lock bits; applied
    again with a second value it returns with the RPC timeout set to the
    second value and the lock bits as the first application left them. *)
Theorem WithRPCTimeout_locks o di d1 d2 :
  exists o1 di1 o2 di2,
    F (WithRPCTimeout d1) o di = Returns o1 di1 /\
    rpcinfo.RPCTimeout (Configs o1) = d1 /\
    Z.land (Bits (Locks o1)) BitRPCTimeout = BitRPCTimeout /\
    F (WithRPCTimeout d2) o1 di1 = Returns o2 di2 /\
    rpcinfo.RPCTimeout (Configs o2) = d2 /\
    Z.land (Bits (Locks o2)) BitRPCTimeout = BitRPCTimeout /\
    Bits (Locks o2) = Bits (Locks o1).
Proof.
  do 4 eexists. simpl.
  split; [ reflexivity | ]. simpl.
  split; [ reflexivity | ].
  split; [ apply lor_sets_bits | ].
  split; [ reflexivity | ]. simpl.
  split; [ reflexivity | ].
  split; [ apply lor_sets_bits | apply lor_twice ].
Qed.

(** ** The connection pool configuration *)

(** C9.  [WithLongConnection] always returns.  When the record has no pool
    configuration it sets the checked configuration; when it has one, the
    record is as it was. *)
Theorem WithLongConnection_first_wins o di cfg :
  exists o' di',
    F (WithLongConnection cfg) o di = Returns o' di' /\
    (PoolCfg o = None -> PoolCfg o' = Some (CheckPoolConfig cfg)) /\
    (forall old, PoolCfg o = Some old -> o' = o /\ PoolCfg o' = Some old).
Proof.
  simpl. destruct (PoolCfg o) as [ old | ] eqn:Hpool.
  - do 2 eexists. split; [ reflexivity | ]. split; [ discriminate | ].
    intros ? [= <-]. auto.
  - do 2 eexists. split; [ reflexivity | ]. split; [ reflexivity | ]. discriminate.
Qed.

End Properties.

(** * Sequences of options *)

Section Composition.

Context `{Imports}.

(** ** The loop *)

Lemma range_F_app (ops1 ops2 : list Option) o di :
  range_F (ops1 ++ ops2) o di = and_then (range_F ops1 o di) (range_F ops2).
Proof.
  revert o di. induction ops1 as [ | op ops1 IH ]; intros o di; simpl.
  - reflexivity.
  - destruct (F op o di) as [ o1 di1 | ]; simpl; [ apply IH | reflexivity ].
Qed.

(** The loop stops at the first option that panics: the options after it
    are not applied, and the record and the slice are left as that option
    left them, with the writes of the options before it. *)
Theorem loop_stops_at_first_panic (before after : list Option) (bad : Option)
    o di o1 di1 v o2 di2 :
  range_F before o di = Returns o1 di1 ->
  F bad o1 di1 = Panics v o2 di2 ->
  range_F (before ++ bad :: after) o di = Panics v o2 di2.
Proof.
  intros Hbefore Hbad. rewrite range_F_app, Hbefore. simpl. now rewrite Hbad.
Qed.

(** A panic inside a suite goes through [WithSuite]: the record keeps the
    writes made by the options of the suite so far, and the slice of the
    caller is as it was, without an entry for the suite. *)
Theorem suite_panic_drops_nested_trace (T v : string) (before after : list Option)
    (bad : Option) o di o1 nested1 pv o2 nested2 :
  range_F before o [] = Returns o1 nested1 ->
  F bad o1 nested1 = Panics pv o2 nested2 ->
  F (WithSuite (mkSuite T v (before ++ bad :: after))) o di = Panics pv o2 di.
Proof.
  intros Hbefore Hbad. simpl.
  rewrite range_F_app, Hbefore. simpl. now rewrite Hbad.
Qed.

(** ** Relations that every option keeps *)

Lemma record_of_WithSuite (suite : Suite) o di :
  record_of (F (WithSuite suite) o di) = record_of (range_F (Suite_Options suite) o []).
Proof. simpl. now destruct (range_F (Suite_Options suite) o []). Qed.

Lemma range_F_relates (R : Options -> Options -> Prop) (cs : list Call) :
  (forall o, R o o) ->
  (forall a b c, R a b -> R b c -> R a c) ->
  Forall (fun c => forall o di, R o (record_of (F (eval c) o di))) cs ->
  forall o di, R o (record_of (range_F (map eval cs) o di)).
Proof.
  intros Hrefl Htrans. induction 1 as [ | c cs Hc _ IH ]; intros o di; simpl.
  - apply Hrefl.
  - specialize (Hc o di). destruct (F (eval c) o di) as [ o1 di1 | pv o1 di1 ]; simpl in *.
    + eapply Htrans; [ exact Hc | apply IH ].
    + exact Hc.
Qed.

(** A reflexive and transitive relation between the record before and the
    record after that every call other than a suite keeps is kept by every
    call, by every sequence of calls, whether they return or panic. *)
Lemma eval_relates (R : Options -> Options -> Prop) :
  (forall o, R o o) ->
  (forall a b c, R a b -> R b c -> R a c) ->
  (forall c, single c -> forall o di, R o (record_of (F (eval c) o di))) ->
  forall c o di, R o (record_of (F (eval c) o di)).
Proof.
  intros Hrefl Htrans Hsingle.
  induction c as [ T v options IH | c Hleaf ] using Call_nested_ind; intros o di.
  - change (eval (CallWithSuite T v options))
      with (WithSuite (mkSuite T v (map eval options))).
    rewrite record_of_WithSuite. simpl. now apply range_F_relates.
  - now apply Hsingle.
Qed.

Lemma sequence_relates (R : Options -> Options -> Prop) :
  (forall o, R o o) ->
  (forall a b c, R a b -> R b c -> R a c) ->
  (forall c, single c -> forall o di, R o (record_of (F (eval c) o di))) ->
  forall cs o di, R o (record_of (range_F (map eval cs) o di)).
Proof.
  intros Hrefl Htrans Hsingle cs. apply range_F_relates; auto.
  apply Forall_forall. intros c _. now apply eval_relates.
Qed.

(** Case analysis on a call that is no suite and on the branches its
    function takes. *)
Ltac by_cases_of_single c Hsingle :=
  destruct c; try (exfalso; exact (Hsingle _ _ _ eq_refl)); clear Hsingle;
  simpl; unfold OnceOrPanic;
  repeat match goal with
    | |- context [ decide ?P ] => destruct (decide P)
    | |- context [ match ?x with _ => _ end ] => destruct x eqn:?
    end; simpl.

Lemma land_lor_same (bits bit : Z) : Z.land bits (Z.lor bits bit) = bits.
Proof.
  apply Z.bits_inj'. intros n _.
  rewrite Z.land_spec, Z.lor_spec. destruct (Z.testbit bits n), (Z.testbit bit n); reflexivity.
Qed.

Lemma locks_kept_refl o : locks_kept o o.
Proof. split; [ apply Z.land_diag | reflexivity ]. Qed.

Lemma locks_kept_trans a b c : locks_kept a b -> locks_kept b c -> locks_kept a c.
Proof.
  intros [ Hab Tab ] [ Hbc Tbc ]. split.
  - rewrite <- Hab at 1. rewrite <- Z.land_assoc, Hbc. exact Hab.
  - now transitivity (Tags (Locks b)).
Qed.

(** No option of this file releases a lock: after any sequence of calls,
    returned or panicked, every lock bit and every locked tag key of the
    record before is still locked. *)
Theorem locks_are_never_released (cs : list Call) o di :
  locks_kept o (record_of (range_F (map eval cs) o di)).
Proof.
  revert cs o di.
  apply sequence_relates; [ apply locks_kept_refl | apply locks_kept_trans | ].
  intros c Hsingle o di.
  by_cases_of_single c Hsingle.
  all: try apply locks_kept_refl.
  all: split; simpl; try apply Z.land_diag; try apply land_lor_same; set_solver.
Qed.

(** Every option keeps the tag keys locked: when every key of the tags is
    in the lock set before a sequence of calls, the same holds after it,
    returned or panicked. *)
Theorem tag_keys_stay_locked (cs : list Call) o di :
  tags_locked o -> tags_locked (record_of (range_F (map eval cs) o di)).
Proof.
  revert cs o di.
  apply (sequence_relates (fun o o' => tags_locked o -> tags_locked o')); [ auto | auto | ].
  intros c Hsingle o di. unfold tags_locked.
  by_cases_of_single c Hsingle; try tauto.
  intros Hlocked. rewrite dom_insert. set_solver.
Qed.

(** No sequence of options leaves a failure policy and a backup policy in
    the retry policy together, when the record did not hold both before. *)
Theorem retry_policy_stays_exclusive (cs : list Call) o di :
  retry_exclusive o -> retry_exclusive (record_of (range_F (map eval cs) o di)).
Proof.
  revert cs o di.
  apply (sequence_relates (fun o o' => retry_exclusive o -> retry_exclusive o'));
    [ auto | auto | ].
  intros c Hsingle o di.
  by_cases_of_single c Hsingle; unfold retry_exclusive; simpl; try tauto.
  all: repeat match goal with
       | Hp : RetryPolicy _ = _ |- _ => rewrite Hp
       end; simpl; auto.
Qed.

Lemma service_name_kept_by_sequences (cs : list Call) o di :
  service_name_kept o (record_of (range_F (map eval cs) o di)).
Proof.
  revert cs o di. apply sequence_relates.
  - intros o. red. auto.
  - intros a b c Hab Hbc Ha. destruct (Hab Ha) as [ Hb Hname ].
    destruct (Hbc Hb) as [ Hc Hname' ]. split; [ exact Hc | congruence ].
  - intros c Hsingle o di. unfold service_name_kept.
    by_cases_of_single c Hsingle; intros Hused;
      solve [ discriminate | split; [ exact Hused | reflexivity ] | split; reflexivity
            | rewrite Hused in *; discriminate ].
Qed.

(** The service name is final.  After [WithDestService] has returned, any
    sequence of calls, returned or panicked, leaves the service name as
    [WithDestService] set it, and [WithDestService] applied after it panics
    without a write to the record or the slice. *)
Theorem service_name_is_final (svr : string) (cs : list Call) o di o1 di1 :
  F (WithDestService svr) o di = Returns o1 di1 ->
  let r := range_F (map eval cs) o1 di1 in
  rpcinfo.ServiceName (Svr (record_of r)) = svr /\
  forall svr', exists pv,
    F (WithDestService svr') (record_of r) (slice_of r) =
      Panics pv (record_of r) (slice_of r).
Proof.
  simpl. unfold OnceOrPanic.
  destruct (used (Once o)) eqn:Hfresh; [ discriminate | ].
  intros [= <- <-].
  match goal with
  | |- context [ range_F _ ?o1 ?di1 ] =>
    destruct (service_name_kept_by_sequences cs o1 di1 eq_refl) as [ Hused Hname ]
  end.
  simpl in Hname. split; [ exact Hname | ].
  intros svr'. rewrite Hused. eauto.
Qed.

(** The slice only grows: whatever a call does, return or panic, the slice
    it leaves starts with the slice it was given. *)
Lemma eval_extends_slice (c : Call) :
  forall o di, exists es, slice_of (F (eval c) o di) = di ++ es.
Proof.
  induction c as [ T v options IH | c Hsingle ] using Call_nested_ind; intros o di.
  - simpl. destruct (range_F (map eval options) o []); simpl.
    + eauto.
    + exists []. now rewrite app_nil_r.
  - by_cases_of_single c Hsingle; unfold Push;
      solve [ eauto | exists []; now rewrite app_nil_r
            | rewrite <- app_assoc; eauto ].
Qed.

Theorem trace_is_append_only (cs : list Call) o di :
  exists es, slice_of (range_F (map eval cs) o di) = di ++ es.
Proof.
  revert o di. induction cs as [ | c cs IH ]; intros o di; simpl.
  - exists []. now rewrite app_nil_r.
  - destruct (eval_extends_slice c o di) as [ es1 Hes1 ].
    destruct (F (eval c) o di) as [ o1 di1 | pv o1 di1 ]; simpl in *.
    + destruct (IH o1 di1) as [ es2 Hes2 ]. rewrite Hes2, Hes1, <- app_assoc. eauto.
    + eauto.
Qed.

(** ** A suite and its options *)

Lemma same_effect_refl r : same_effect r r.
Proof. destruct r; simpl; auto. Qed.

Lemma same_effect_trans r1 r2 r3 :
  same_effect r1 r2 -> same_effect r2 r3 -> same_effect r1 r3.
Proof.
  destruct r1, r2, r3; simpl; try tauto; try congruence.
  intros [ -> -> ] [ -> -> ]. auto.
Qed.

Lemma range_F_same_effect (cs : list Call) :
  Forall (fun c => forall o di1 di2,
            same_effect (F (eval c) o di1) (F (eval c) o di2)) cs ->
  forall o di1 di2,
    same_effect (range_F (map eval cs) o di1) (range_F (map eval cs) o di2).
Proof.
  induction 1 as [ | c cs Hc _ IH ]; intros o di1 di2; simpl.
  - reflexivity.
  - specialize (Hc o di1 di2).
    destruct (F (eval c) o di1), (F (eval c) o di2); simpl in *; try tauto.
    subst. apply IH.
Qed.

Lemma WithSuite_same_effect (suite : Suite) o di :
  same_effect (F (WithSuite suite) o di) (range_F (Suite_Options suite) o []).
Proof. simpl. destruct (range_F (Suite_Options suite) o []); simpl; auto. Qed.

(** What a call does to the record, and whether and with what value it
    panics, does not depend on the slice it is given. *)
Lemma eval_effect_ignores_slice (c : Call) :
  forall o di1 di2, same_effect (F (eval c) o di1) (F (eval c) o di2).
Proof.
  induction c as [ T v options IH | c Hsingle ] using Call_nested_ind; intros o di1 di2.
  - change (eval (CallWithSuite T v options))
      with (WithSuite (mkSuite T v (map eval options))).
    eapply same_effect_trans; [ apply WithSuite_same_effect | ].
    eapply same_effect_trans; [ apply (range_F_same_effect _ IH o [] di2) | ].
    simpl. destruct (range_F (map eval options) o di2) eqn:Hrun; simpl.
    + pose proof (range_F_same_effect _ IH o di2 []) as Hs. rewrite Hrun in Hs.
      destruct (range_F (map eval options) o []); simpl in *; tauto.
    + pose proof (range_F_same_effect _ IH o di2 []) as Hs. rewrite Hrun in Hs.
      destruct (range_F (map eval options) o []); simpl in *; tauto.
  - by_cases_of_single c Hsingle; auto.
Qed.

(** A suite has the effect of its options: applying [WithSuite] to a suite
    and applying the options of the suite one after the other leave the same
    record, and panic in the same cases with the same value. *)
Theorem suite_has_effect_of_its_options (T v : string) (options : list Call) o di :
  same_effect (F (eval (CallWithSuite T v options)) o di)
              (range_F (map eval options) o di).
Proof.
  eapply same_effect_trans; [ apply (WithSuite_same_effect (mkSuite T v (map eval options))) | ].
  apply range_F_same_effect. apply Forall_forall. intros c _.
  apply eval_effect_ignores_slice.
Qed.

(** ** What sequences of options accumulate *)

(** A list in the record to which every call other than a suite appends
    what [adds] says grows, over a sequence of calls that returns, by what
    the calls add in the order of the sequence, the options of a suite
    counting at the place of the suite. *)
Lemma sequence_accumulates {A : Type} (get : Options -> list A) (adds : Call -> list A) :
  (forall T v options, adds (CallWithSuite T v options) = concat (map adds options)) ->
  (forall c, single c -> forall o di o' di',
     F (eval c) o di = Returns o' di' -> get o' = get o ++ adds c) ->
  forall cs o di o' di',
    range_F (map eval cs) o di = Returns o' di' ->
    get o' = get o ++ concat (map adds cs).
Proof.
  intros Hsuite Hsingle.
  assert (Hlist : forall cs,
             Forall (fun c => forall o di o' di',
                       F (eval c) o di = Returns o' di' -> get o' = get o ++ adds c) cs ->
             forall o di o' di',
               range_F (map eval cs) o di = Returns o' di' ->
               get o' = get o ++ concat (map adds cs)).
  { induction 1 as [ | c cs Hc _ IH ]; intros o di o' di' Hrun; simpl in *.
    - injection Hrun as <- _. now rewrite app_nil_r.
    - apply and_then_returns in Hrun as (o1 & di1 & H1 & H2).
      apply Hc in H1. apply IH in H2. rewrite H2, H1, <- app_assoc. reflexivity. }
  assert (Hcall : forall c o di o' di',
             F (eval c) o di = Returns o' di' -> get o' = get o ++ adds c).
  { induction c as [ T v options IH | c Hleaf ] using Call_nested_ind;
      intros o di o' di' Hrun.
    - apply WithSuite_returns in Hrun as (nested & Hrun & _). simpl in Hrun.
      rewrite Hsuite. eapply Hlist; eauto.
    - eapply Hsingle; eauto. }
  intros cs. apply Hlist. apply Forall_forall. intros c _. apply Hcall.
Qed.

(** Case analysis on a call that is no suite and that has returned. *)
Ltac by_cases_of_returned c Hsingle Hrun :=
  destruct c; try (exfalso; exact (Hsingle _ _ _ eq_refl)); clear Hsingle;
  simpl in Hrun; unfold OnceOrPanic in Hrun;
  repeat match type of Hrun with
    | context [ decide ?P ] => destruct (decide P)
    | context [ match ?x with _ => _ end ] => destruct x eqn:?
    end; try discriminate;
  injection Hrun as <- <-; simpl.

(** Middlewares are kept in the order of the options.  Over a sequence of
    calls that returns, [o.MWBs] grows by the builders of the
    [WithMiddleware] and [WithMiddlewareBuilder] calls, and [o.IMWBs] by
    those of the [WithInstanceMW] calls, each in the order of the sequence
    with the options of a suite at the place of the suite. *)
Theorem middlewares_follow_application (cs : list Call) o di o' di' :
  range_F (map eval cs) o di = Returns o' di' ->
  MWBs o' = MWBs o ++ concat (map mwbs_of cs) /\
  IMWBs o' = IMWBs o ++ concat (map imwbs_of cs).
Proof.
  intros Hrun. split.
  - revert cs o di o' di' Hrun. apply sequence_accumulates; [ reflexivity | ].
    intros c Hsingle o di o' di' Hrun.
    by_cases_of_returned c Hsingle Hrun; now rewrite ?app_nil_r.
  - revert cs o di o' di' Hrun. apply sequence_accumulates; [ reflexivity | ].
    intros c Hsingle o di o' di' Hrun.
    by_cases_of_returned c Hsingle Hrun; now rewrite ?app_nil_r.
Qed.

(** Tracers are cumulative and kept in the order of the options: over a
    sequence of calls that returns, the tracers of the record grow by the
    tracers of the [WithTracer] calls in the order of the sequence.  (With
    [Controller.Append] appending at the end.) *)
Theorem tracers_follow_application (cs : list Call) o di o' di' :
  range_F (map eval cs) o di = Returns o' di' ->
  tracers_in o' = tracers_in o ++ concat (map tracers_of cs).
Proof.
  revert cs o di o' di'. apply sequence_accumulates; [ reflexivity | ].
  intros c Hsingle o di o' di' Hrun.
  by_cases_of_returned c Hsingle Hrun; unfold tracers_in; simpl;
    repeat match goal with
    | Heq : TracerCtl _ = _ |- _ => rewrite Heq
    end; now rewrite ?app_nil_r.
Qed.

(** ** Where the panics are *)




(** ** More on the single options *)



(** [WithResolver] after [WithHostPorts] replaces the resolver built from
    the addresses and leaves [o.Targets], the addresses joined by commas, as
    [WithHostPorts] set it. *)
Theorem WithResolver_after_WithHostPorts (hostports : list string) (r : Handle)
    o di o1 di1 :
  F (WithHostPorts hostports) o di = Returns o1 di1 ->
  Targets o1 = String.concat "," hostports /\
  exists o2 di2,
    F (WithResolver r) o1 di1 = Returns o2 di2 /\
    Resolver o2 = Some (discovery.UserResolver r) /\
    Targets o2 = String.concat "," hostports.
Proof.
  simpl. destruct (resolve_hostports hostports []) as [ | ins ]; [ discriminate | ].
  destruct (Nat.eqb (length ins) 0); [ discriminate | ].
  intros [= <- <-]. simpl. split; [ reflexivity | ].
  do 2 eexists. repeat split.
Qed.

Lemma lor_swap (bits b1 b2 : Z) : Z.lor (Z.lor bits b1) b2 = Z.lor (Z.lor bits b2) b1.
Proof. rewrite <- !Z.lor_assoc. f_equal. apply Z.lor_comm. Qed.

(** The two timeout options commute on the record: in either order they
    return and leave the same record, with both timeouts stored and the
    bits of both locks set.  (With the setters of the RPC config storing
    their argument.) *)
Theorem timeouts_commute (d_rpc d_conn : time.Duration) o di1 di2 :
  exists o' di1' di2',
    and_then (F (WithRPCTimeout d_rpc) o di1) (F (WithConnectTimeout d_conn)) =
      Returns o' di1' /\
    and_then (F (WithConnectTimeout d_conn) o di2) (F (WithRPCTimeout d_rpc)) =
      Returns o' di2' /\
    rpcinfo.RPCTimeout (Configs o') = d_rpc /\
    rpcinfo.ConnectTimeout (Configs o') = d_conn /\
    Z.land (Bits (Locks o')) BitRPCTimeout = BitRPCTimeout /\
    Z.land (Bits (Locks o')) BitConnectTimeout = BitConnectTimeout.
Proof.
  do 3 eexists. simpl.
  split; [ reflexivity | ].
  split; [ unfold rpcinfo.SetRPCTimeout, rpcinfo.SetConnectTimeout; simpl;
           rewrite lor_swap; reflexivity | ].
  simpl. split; [ reflexivity | ]. split; [ reflexivity | ].
  split; [ rewrite lor_swap; apply lor_sets_bits | apply lor_sets_bits ].
Qed.

(** [WithLoadBalancer] given no cache options sets the balancer and leaves
    [o.BalancerCacheOpt] as it was; given some, it stores the first one and
    ignores the others.  So a second [WithLoadBalancer] without cache
    options keeps the cache options of the first. *)
Theorem WithLoadBalancer_cache_options (lb1 lb2 : Handle) (opt : option Handle)
    (more : list (option Handle)) o di :
  exists o1 di1 o2 di2,
    F (WithLoadBalancer lb1 (opt :: more)) o di = Returns o1 di1 /\
    Balancer o1 = Some lb1 /\ BalancerCacheOpt o1 = opt /\
    F (WithLoadBalancer lb2 []) o1 di1 = Returns o2 di2 /\
    Balancer o2 = Some lb2 /\ BalancerCacheOpt o2 = opt.
Proof. do 4 eexists. simpl. repeat split. Qed.

(** [WithTag] stores the value under the key and locks the key; the other
    keys keep their values and the lock set gains the key only.  Applied
    again with the same key, the later value replaces the earlier one and
    the lock set is as the first application left it. *)
Theorem WithTag_sets_and_locks (key val val' : string) o di :
  exists o1 di1 o2 di2,
    F (WithTag key val) o di = Returns o1 di1 /\
    rpcinfo.Tags (Svr o1) !! key = Some val /\
    (forall k, k <> key -> rpcinfo.Tags (Svr o1) !! k = rpcinfo.Tags (Svr o) !! k) /\
    Tags (Locks o1) = {[key]} ∪ Tags (Locks o) /\
    rpcinfo.ServiceName (Svr o1) = rpcinfo.ServiceName (Svr o) /\
    F (WithTag key val') o1 di1 = Returns o2 di2 /\
    rpcinfo.Tags (Svr o2) !! key = Some val' /\
    Tags (Locks o2) = Tags (Locks o1).
Proof.
  do 4 eexists. simpl.
  split; [ reflexivity | ]. simpl.
  split; [ apply lookup_insert_eq | ].
  split; [ intros k Hk; now apply lookup_insert_ne | ].
  split; [ reflexivity | ].
  split; [ reflexivity | ].
  split; [ reflexivity | ]. simpl.
  split; [ apply lookup_insert_eq | set_solver ].
Qed.

End Composition.

(** * The properties on concrete inputs *)

Lemma returned_option_pushes_at_WithDestService :
  F (eval (H := sample_imports) (CallWithDestService "echo")) blank [] =
    Returns (set_Svr (rpcinfo.mkEndpointBasicInfo "echo" ∅)
               (set_Once (mkOptionOnce true) blank))
            [Str "WithDestService(echo)"] /\
  exists es, [Str "WithDestService(echo)"] = [] ++ es /\ length es = 1%nat.
Proof.
  split; [ reflexivity | ].
  apply (returned_option_pushes (H := sample_imports) (CallWithDestService "echo") blank []
           (set_Svr (rpcinfo.mkEndpointBasicInfo "echo" ∅)
              (set_Once (mkOptionOnce true) blank))).
  reflexivity.
Defined.

(** C1 as stated fails: [WithFailureRetry] given a nil policy returns and
    has appended no entry. *)
Lemma nil_policy_pushes_no_entry :
  ~ (forall o' di',
       F (eval (H := sample_imports) (CallWithFailureRetry None)) blank [] = Returns o' di' ->
       exists e, di' = [] ++ [e]).
Proof.
  intros Hone. destruct (Hone blank [] eq_refl) as [ e He ]. discriminate He.
Qed.

(** [WithMuxConnection] returns with two entries appended. *)
Example WithMuxConnection_pushes_two :
  slice_of (F (WithMuxConnection (H := sample_imports) 2) blank []) =
    [ Str "WithMuxConnection";
      Str "WithTransHandlerFactory(*netpollmux.cliTransHandlerFactory)" ].
Proof. reflexivity. Qed.

Lemma trace_follows_application_at_sample_calls :
  let run := range_F (map (eval (H := sample_imports)) sample_calls) blank [] in
  run = Returns (record_of run)
          [ Str "WithRPCTimeout(1000ms)";
            Nested "client.suite({})"
              [ Str "WithTag(cluster=a)";
                Nested "client.inner({})" [ Str "WithConnReporterEnabled()" ];
                Str "WithMuxConnection";
                Str "WithTransHandlerFactory(*netpollmux.cliTransHandlerFactory)" ];
            Str "WithDestService(echo)" ] /\
  slice_of run = [] ++ concat (map (entries (H := sample_imports)) sample_calls).
Proof.
  intros run.
  assert (Hrun : run = Returns (record_of run) (slice_of run)) by (vm_compute; reflexivity).
  split; [ vm_compute; reflexivity | ].
  exact (proj1 (trace_follows_application (H := sample_imports) sample_calls blank []
                  (record_of run) (slice_of run) Hrun)).
Defined.

Lemma retry_policies_exclude_each_other_at_samples :
  (exists rest,
     F (WithFailureRetry (H := sample_imports) (Some failure_policy)) with_backup [] =
       Panics (PanicString ("BackupPolicy" +:+ rest)) with_backup
              ([] ++ [Str ("WithFailureRetry(" +:+ fmt_v failure_policy +:+ ")")])) /\
  (exists rest,
     F (WithBackupRequest (H := sample_imports) (Some backup_policy)) with_failure [] =
       Panics (PanicString ("Failure Retry" +:+ rest)) with_failure
              ([] ++ [Str ("WithBackupRequest(" +:+ fmt_v backup_policy +:+ ")")])) /\
  (exists o' di' policy,
     F (WithFailureRetry (H := sample_imports) (Some failure_policy)) blank [] = Returns o' di' /\
     RetryPolicy o' = Some policy /\
     retry.Type' policy = FailureType (Imports := sample_imports) /\
     retry.Enable policy = true /\
     retry.FailurePolicy' policy = Some failure_policy /\
     (forall bp, exists v o2 di2,
        F (WithBackupRequest (H := sample_imports) (Some bp)) o' di' = Panics v o2 di2)) /\
  (exists o' di' policy,
     F (WithBackupRequest (H := sample_imports) (Some backup_policy)) blank [] = Returns o' di' /\
     RetryPolicy o' = Some policy /\
     retry.Type' policy = BackupType (Imports := sample_imports) /\
     retry.Enable policy = true /\
     retry.BackupPolicy' policy = Some backup_policy /\
     (forall fp, exists v o2 di2,
        F (WithFailureRetry (H := sample_imports) (Some fp)) o' di' = Panics v o2 di2)).
Proof.
  destruct (retry_policies_exclude_each_other (H := sample_imports) with_backup [])
    as (Hfailure & _ & _ & _).
  destruct (retry_policies_exclude_each_other (H := sample_imports) with_failure [])
    as (_ & Hbackup & _ & _).
  destruct (retry_policies_exclude_each_other (H := sample_imports) blank [])
    as (_ & _ & Hfirst & Hsecond).
  split; [ | split; [ | split ] ].
  - apply (Hfailure failure_policy (retry.mkPolicy true 1 None (Some backup_policy))
             backup_policy); reflexivity.
  - apply (Hbackup backup_policy (retry.mkPolicy true 0 (Some failure_policy) None)
             failure_policy); reflexivity.
  - apply (Hfirst failure_policy). exact I.
  - apply (Hsecond backup_policy). exact I.
Defined.


Lemma WithHostPorts_installs_fixed_resolver_at_samples :
  exists o' di' resolve name ins,
    F (WithHostPorts (H := sample_imports) ["127.0.0.1:9000"; "127.0.0.1:9001"]) blank [] =
      Returns o' di' /\
    Resolver o' = Some (discovery.SynthesizedResolver resolve name) /\
    (forall ctx key,
       resolve ctx key =
         ({| discovery.Cacheable := true;
             discovery.CacheKey := "fixed";
             discovery.Instances := ins |}, None)) /\
    length ins = 2%nat /\
    Forall2 (fun hp i => discovery.Address i = hp) ["127.0.0.1:9000"; "127.0.0.1:9001"] ins /\
    ins = map (instance_of (H := sample_imports)) ["127.0.0.1:9000"; "127.0.0.1:9001"].
Proof.
  apply (WithHostPorts_installs_fixed_resolver (H := sample_imports) blank []
           ["127.0.0.1:9000"; "127.0.0.1:9001"]).
  - discriminate.
  - repeat constructor.
Defined.

Lemma WithTransportProtocol_cases_at_samples :
  (exists v, F (WithTransportProtocol (H := sample_imports) 3) blank [] = Panics v blank []) /\
  (exists o' di',
     F (WithTransportProtocol (H := sample_imports) 16) blank [] = Returns o' di' /\
     rpcinfo.TransportProtocol (Configs o') = 16 /\
     remote.ConnPool (RemoteOpt o') <> None /\
     remote.CliHandlerFactory (RemoteOpt o') <> None) /\
  (exists o' di',
     F (WithTransportProtocol (H := sample_imports) 4) blank [] = Returns o' di' /\
     rpcinfo.TransportProtocol (Configs o') = 4 /\
     o' = set_Configs (rpcinfo.mkRPCConfig 0 0 4) blank).
Proof.
  split; [ | split ].
  - apply (proj1 (WithTransportProtocol_cases (H := sample_imports) blank [] 3)).
    reflexivity.
  - apply (proj1 (proj2 (WithTransportProtocol_cases (H := sample_imports) blank [] 16)));
      [ discriminate | reflexivity ].
  - apply (proj2 (proj2 (WithTransportProtocol_cases (H := sample_imports) blank [] 4)));
      discriminate.
Defined.

Lemma WithDestService_twice_at_samples :
  F (WithDestService "echo") blank [] =
    Returns (set_Svr (rpcinfo.mkEndpointBasicInfo "echo" ∅)
               (set_Once (mkOptionOnce true) blank))
            [Str "WithDestService(echo)"] /\
  rpcinfo.ServiceName
    (Svr (set_Svr (rpcinfo.mkEndpointBasicInfo "echo" ∅)
            (set_Once (mkOptionOnce true) blank))) = "echo" /\
  exists v o2 di2,
    F (WithDestService "other") 
      (set_Svr (rpcinfo.mkEndpointBasicInfo "echo" ∅) (set_Once (mkOptionOnce true) blank))
      [Str "WithDestService(echo)"] = Panics v o2 di2 /\
    o2 = set_Svr (rpcinfo.mkEndpointBasicInfo "echo" ∅) (set_Once (mkOptionOnce true) blank) /\
    di2 = [Str "WithDestService(echo)"] /\
    rpcinfo.ServiceName (Svr o2) = "echo".
Proof.
  split; [ reflexivity | ].
  apply (WithDestService_twice blank [] "echo" "other"). reflexivity.
Defined.

Lemma WithLongConnection_first_wins_at_samples :
  (exists o' di',
     F (WithLongConnection (H := sample_imports) idle_config) blank [] = Returns o' di' /\
     PoolCfg o' = Some idle_config) /\
  (exists o' di',
     F (WithLongConnection (H := sample_imports) other_idle_config) with_pool [] =
       Returns o' di' /\
     o' = with_pool /\ PoolCfg o' = Some idle_config).
Proof.
  split.
  - destruct (WithLongConnection_first_wins (H := sample_imports) blank [] idle_config)
      as (o' & di' & Hrun & Hunset & _).
    exists o', di'. split; [ exact Hrun | ]. apply Hunset. reflexivity.
  - destruct (WithLongConnection_first_wins (H := sample_imports) with_pool [] other_idle_config)
      as (o' & di' & Hrun & _ & Hset).
    exists o', di'. split; [ exact Hrun | ]. apply (Hset idle_config). reflexivity.
Defined.

(** ** Sequences of options on concrete inputs *)

#[local] Existing Instance sample_imports.

Lemma loop_stops_at_first_panic_at_samples :
  let before := [WithTag "cluster" "a"; WithDestService "echo"] in
  let first := range_F before blank [] in
  first = Returns (record_of first) (slice_of first) /\
  F (WithDestService "again") (record_of first) (slice_of first) =
    Panics (PanicString "option has already been set") (record_of first) (slice_of first) /\
  range_F (before ++ WithDestService "again" :: [WithLogger tracer_a]) blank [] =
    Panics (PanicString "option has already been set") (record_of first) (slice_of first).
Proof.
  intros before first.
  assert (Hfirst : first = Returns (record_of first) (slice_of first)) by reflexivity.
  assert (Hbad : F (WithDestService "again") (record_of first) (slice_of first) =
                 Panics (PanicString "option has already been set")
                        (record_of first) (slice_of first)) by reflexivity.
  split; [ exact Hfirst | split; [ exact Hbad | ] ].
  exact (loop_stops_at_first_panic before [WithLogger tracer_a] (WithDestService "again")
           blank [] _ _ _ _ _ Hfirst Hbad).
Defined.

Lemma suite_panic_drops_nested_trace_at_samples :
  let before := [WithTag "cluster" "a"; WithDestService "echo"] in
  let first := range_F before blank [] in
  first = Returns (record_of first) (slice_of first) /\
  F (WithDestService "again") (record_of first) (slice_of first) =
    Panics (PanicString "option has already been set") (record_of first) (slice_of first) /\
  F (WithSuite (mkSuite "client.suite" "{}"
                  (before ++ WithDestService "again" :: [WithLogger tracer_a])))
    blank [Str "WithConnReporterEnabled()"] =
    Panics (PanicString "option has already been set") (record_of first)
           [Str "WithConnReporterEnabled()"].
Proof.
  intros before first.
  assert (Hfirst : first = Returns (record_of first) (slice_of first)) by reflexivity.
  assert (Hbad : F (WithDestService "again") (record_of first) (slice_of first) =
                 Panics (PanicString "option has already been set")
                        (record_of first) (slice_of first)) by reflexivity.
  split; [ exact Hfirst | split; [ exact Hbad | ] ].
  exact (suite_panic_drops_nested_trace "client.suite" "{}" before [WithLogger tracer_a]
           (WithDestService "again") blank [Str "WithConnReporterEnabled()"]
           _ _ _ _ _ Hfirst Hbad).
Defined.

Lemma tag_keys_stay_locked_at_samples :
  tags_locked blank /\
  tags_locked (record_of (range_F (map eval failing_calls) blank [])).
Proof.
  assert (Hblank : tags_locked blank) by (unfold tags_locked; simpl; set_solver).
  split; [ exact Hblank | ].
  exact (tag_keys_stay_locked failing_calls blank [] Hblank).
Defined.

Lemma retry_policy_stays_exclusive_at_samples :
  retry_exclusive with_backup /\
  retry_exclusive (record_of (range_F (map eval failing_calls) with_backup [])).
Proof.
  assert (Hstart : retry_exclusive with_backup) by (left; reflexivity).
  split; [ exact Hstart | ].
  exact (retry_policy_stays_exclusive failing_calls with_backup [] Hstart).
Defined.

Lemma service_name_is_final_at_samples :
  let first := F (WithDestService "echo") blank [] in
  first = Returns (record_of first) (slice_of first) /\
  let r := range_F (map eval quiet_calls) (record_of first) (slice_of first) in
  rpcinfo.ServiceName (Svr (record_of r)) = "echo" /\
  forall svr', exists pv,
    F (WithDestService svr') (record_of r) (slice_of r) =
      Panics pv (record_of r) (slice_of r).
Proof.
  intros first.
  assert (Hfirst : first = Returns (record_of first) (slice_of first)) by reflexivity.
  split; [ exact Hfirst | ].
  exact (service_name_is_final "echo" quiet_calls blank [] _ _ Hfirst).
Defined.

Lemma middlewares_follow_application_at_samples :
  let r := range_F (map eval quiet_calls) blank [] in
  r = Returns (record_of r) (slice_of r) /\
  MWBs (record_of r) =
    [] ++ [ endpoint.ConstBuilder middleware_a; endpoint.UserBuilder builder_c;
            endpoint.ConstBuilder middleware_b ] /\
  IMWBs (record_of r) = [] ++ [ endpoint.ConstBuilder middleware_b ].
Proof.
  intros r.
  assert (Hrun : r = Returns (record_of r) (slice_of r)) by (vm_compute; reflexivity).
  split; [ exact Hrun | ].
  exact (middlewares_follow_application quiet_calls blank [] _ _ Hrun).
Defined.

Lemma tracers_follow_application_at_samples :
  let r := range_F (map eval quiet_calls) blank [] in
  r = Returns (record_of r) (slice_of r) /\
  tracers_in (record_of r) = [] ++ [ tracer_a; tracer_b ].
Proof.
  intros r.
  assert (Hrun : r = Returns (record_of r) (slice_of r)) by (vm_compute; reflexivity).
  split; [ exact Hrun | ].
  exact (tracers_follow_application quiet_calls blank [] _ _ Hrun).
Defined.




Lemma WithResolver_after_WithHostPorts_at_samples :
  let first := F (WithHostPorts ["127.0.0.1:9000"; "/tmp/rpc.sock"]) blank [] in
  first = Returns (record_of first) (slice_of first) /\
  Targets (record_of first) = String.concat "," ["127.0.0.1:9000"; "/tmp/rpc.sock"] /\
  exists o2 di2,
    F (WithResolver tracer_a) (record_of first) (slice_of first) = Returns o2 di2 /\
    Resolver o2 = Some (discovery.UserResolver tracer_a) /\
    Targets o2 = String.concat "," ["127.0.0.1:9000"; "/tmp/rpc.sock"].
Proof.
  intros first.
  assert (Hfirst : first = Returns (record_of first) (slice_of first)) by reflexivity.
  split; [ exact Hfirst | ].
  exact (WithResolver_after_WithHostPorts _ tracer_a blank [] _ _ Hfirst).
Defined.

Lemma WithTag_sets_and_locks_at_samples :
  exists o1 di1,
    F (WithTag "cluster" "a") blank [] = Returns o1 di1 /\
    rpcinfo.Tags (Svr o1) !! "cluster" = Some "a" /\
    rpcinfo.Tags (Svr o1) !! "idc" = rpcinfo.Tags (Svr blank) !! "idc".
Proof.
  destruct (WithTag_sets_and_locks "cluster" "a" "b" blank [])
    as (o1 & di1 & _ & _ & Hrun & Hkey & Hother & _).
  exists o1, di1. split; [ exact Hrun | split; [ exact Hkey | ] ].
  apply Hother. discriminate.
Defined.
